(** * LegalDiscoveryFhe: a shallow embedding of contracts/Legal_Discovery_Fhe.sol

    The contract keeps a batch ledger of encrypted documents, lets authorised
    providers run an encrypted equality count over a batch and hands the
    resulting ciphertext to a decryption oracle, whose answer comes back
    through [myCallback].

    Conventions of the embedding:
    - [uint256], [address] and [bytes32] values are integers ([Z]); the
      checked arithmetic of Solidity 0.8 is written out ([checked_add]).
    - A Solidity [mapping] is a finite map ([gmap]) read with the type's
      zero value as default.
    - An entry point is a function from the call environment and the world
      to a [Result]: either the new world or the error of the revert.  A
      revert discards every effect of the call, which [transact] spells out.
    - The FHE library, keccak256 and the decryption oracle are imported by
      the contract; they are the parameters of the development
      ([Capabilities]). *)

From Stdlib Require Import ZArith Lia.
From Stdlib Require Import Strings.Byte.
From stdpp Require Import gmap strings list.

Local Open Scope Z_scope.

(** ** Errors and results *)

(** The custom errors of the contract, the string reverts of [require] and
    [revert("...")], the arithmetic panic of checked arithmetic (code 0x11)
    and the data-less revert of a failed [abi.decode]. *)
Inductive Error : Type :=
| NotOwner
| NotProvider
| PausedContract
| CooldownActive
| BatchClosedOrInvalid
| InvalidBatchId
| ReplayAttempt
| StateMismatch
| InvalidProof
| NotInitialized
| ErrorString (msg : string)
| Panic (code : Z)
| DecodeFailure.

Inductive Result (A : Type) : Type :=
| Ok (a : A)
| Revert (e : Error).
Arguments Ok {A} a.
Arguments Revert {A} e.

Global Instance Result_ret : MRet Result := fun _ a => Ok a.
Global Instance Result_bind : MBind Result := fun _ _ k m =>
  match m with
  | Ok a => k a
  | Revert e => Revert e
  end.

(** [if (!b) revert e;] *)
Definition check (b : bool) (e : Error) : Result unit :=
  if b then Ok tt else Revert e.

Definition is_ok {A : Type} (r : Result A) : bool :=
  match r with Ok _ => true | Revert _ => false end.

Definition error_of {A : Type} (r : Result A) : option Error :=
  match r with Ok _ => None | Revert e => Some e end.

(** ** Machine integers *)

Definition MAX_UINT256 : Z := 2 ^ 256 - 1.
Definition MAX_UINT32 : Z := 2 ^ 32 - 1.

(** Addition on [uint256] in Solidity ^0.8: an overflow reverts with
    Panic(0x11). *)
Definition checked_add (a b : Z) : Result Z :=
  if a + b <=? MAX_UINT256 then Ok (a + b) else Revert (Panic 17).

(** ** Data model *)

Record Batch : Type := mkBatch {
  batch_id : Z;
  batch_open : bool
}.

Record Document : Type := mkDocument {
  encryptedId : Z;
  encryptedContent : Z
}.

Record DecryptionContext : Type := mkDecryptionContext {
  ctx_batchId : Z;
  stateHash : Z;
  processed : bool
}.

Inductive Event : Type :=
| OwnershipTransferred (previousOwner newOwner : Z)
| ProviderAdded (provider : Z)
| ProviderRemoved (provider : Z)
| Paused (account : Z)
| Unpaused (account : Z)
| CooldownSecondsChanged (oldCooldownSeconds newCooldownSeconds : Z)
| BatchOpened (batchId : Z)
| BatchClosed (batchId : Z)
| DocumentSubmitted (provider batchId encryptedId : Z)
| KeywordSearchRequested (requestId batchId encryptedKeyword : Z)
| KeywordSearchCompleted (requestId batchId count : Z).

(** The storage variables of the contract. *)
Record State : Type := mkState {
  owner : Z;
  isProvider : gmap Z bool;
  paused : bool;
  cooldownSeconds : Z;
  lastSubmissionTime : gmap Z Z;
  lastDecryptionRequestTime : gmap Z Z;
  currentBatchId : Z;
  batches : gmap Z Batch;
  batchDocuments : gmap Z (list Document);
  decryptionContexts : gmap Z DecryptionContext
}.

(** [msg.sender], [block.timestamp] and [address(this)] of a call. *)
Record Env : Type := mkEnv {
  msg_sender : Z;
  block_timestamp : Z;
  this_address : Z
}.

(** Reads of a mapping: an absent key reads as the zero value. *)
Definition get_isProvider (s : State) (a : Z) : bool :=
  default false (isProvider s !! a).
Definition get_lastSubmissionTime (s : State) (a : Z) : Z :=
  default 0 (lastSubmissionTime s !! a).
Definition get_lastDecryptionRequestTime (s : State) (a : Z) : Z :=
  default 0 (lastDecryptionRequestTime s !! a).
Definition get_batch (s : State) (i : Z) : Batch :=
  default (mkBatch 0 false) (batches s !! i).
Definition get_batchDocuments (s : State) (i : Z) : list Document :=
  default [] (batchDocuments s !! i).
Definition get_decryptionContext (s : State) (r : Z) : DecryptionContext :=
  default (mkDecryptionContext 0 0 false) (decryptionContexts s !! r).

(** Writes to one storage variable. *)
Definition set_owner (v : Z) (s : State) : State :=
  mkState v (isProvider s) (paused s) (cooldownSeconds s)
    (lastSubmissionTime s) (lastDecryptionRequestTime s) (currentBatchId s)
    (batches s) (batchDocuments s) (decryptionContexts s).
Definition set_isProvider (a : Z) (v : bool) (s : State) : State :=
  mkState (owner s) (<[a := v]> (isProvider s)) (paused s) (cooldownSeconds s)
    (lastSubmissionTime s) (lastDecryptionRequestTime s) (currentBatchId s)
    (batches s) (batchDocuments s) (decryptionContexts s).
Definition set_paused (v : bool) (s : State) : State :=
  mkState (owner s) (isProvider s) v (cooldownSeconds s)
    (lastSubmissionTime s) (lastDecryptionRequestTime s) (currentBatchId s)
    (batches s) (batchDocuments s) (decryptionContexts s).
Definition set_cooldownSeconds (v : Z) (s : State) : State :=
  mkState (owner s) (isProvider s) (paused s) v
    (lastSubmissionTime s) (lastDecryptionRequestTime s) (currentBatchId s)
    (batches s) (batchDocuments s) (decryptionContexts s).
Definition set_lastSubmissionTime (a v : Z) (s : State) : State :=
  mkState (owner s) (isProvider s) (paused s) (cooldownSeconds s)
    (<[a := v]> (lastSubmissionTime s)) (lastDecryptionRequestTime s)
    (currentBatchId s) (batches s) (batchDocuments s) (decryptionContexts s).
Definition set_lastDecryptionRequestTime (a v : Z) (s : State) : State :=
  mkState (owner s) (isProvider s) (paused s) (cooldownSeconds s)
    (lastSubmissionTime s) (<[a := v]> (lastDecryptionRequestTime s))
    (currentBatchId s) (batches s) (batchDocuments s) (decryptionContexts s).
Definition set_currentBatchId (v : Z) (s : State) : State :=
  mkState (owner s) (isProvider s) (paused s) (cooldownSeconds s)
    (lastSubmissionTime s) (lastDecryptionRequestTime s) v
    (batches s) (batchDocuments s) (decryptionContexts s).
Definition set_batch (i : Z) (b : Batch) (s : State) : State :=
  mkState (owner s) (isProvider s) (paused s) (cooldownSeconds s)
    (lastSubmissionTime s) (lastDecryptionRequestTime s) (currentBatchId s)
    (<[i := b]> (batches s)) (batchDocuments s) (decryptionContexts s).
Definition set_batchDocuments (i : Z) (ds : list Document) (s : State) : State :=
  mkState (owner s) (isProvider s) (paused s) (cooldownSeconds s)
    (lastSubmissionTime s) (lastDecryptionRequestTime s) (currentBatchId s)
    (batches s) (<[i := ds]> (batchDocuments s)) (decryptionContexts s).
Definition set_decryptionContext (r : Z) (c : DecryptionContext) (s : State) : State :=
  mkState (owner s) (isProvider s) (paused s) (cooldownSeconds s)
    (lastSubmissionTime s) (lastDecryptionRequestTime s) (currentBatchId s)
    (batches s) (batchDocuments s) (<[r := c]> (decryptionContexts s)).

(** Storage before the constructor runs: every variable is zero. *)
Definition empty_state : State :=
  mkState 0 ∅ false 0 ∅ ∅ 0 ∅ ∅ ∅.

(** ** Imported capabilities *)

(** What the contract imports: the FHE operations on ciphertext handles
    ([euint32] and [ebool] are [bytes32] handles), [keccak256], and the
    decryption oracle reached through [FHE.requestDecryption] and
    [FHE.checkSignatures].  [abi.encode] yields 32-byte words and
    [keccak256] is taken on them.  The callback selector passed to
    [requestDecryption] is the constant [this.myCallback.selector] and is
    left out.  [fhe_select] is the encrypted selection of the backend
    (the specification's [selectAsCount]); the contract never calls it,
    and only the loop written from the specification's words does
    ([spec_countStep]). *)
Class Capabilities : Type := {
  asEuint32 : Z -> Z;
  fhe_eq : Z -> Z -> Z;
  fhe_select : Z -> Z -> Z -> Z;
  fhe_add : Z -> Z -> Z;
  isInitialized : Z -> bool;
  keccak256 : list Z -> Z;
  OracleState : Type;
  requestDecryption : OracleState -> list Z -> Z * OracleState;
  checkSignatures : OracleState -> Z -> list Byte.byte -> list Byte.byte -> bool
}.

(** The plaintext behind a handle, as the decryption oracle would reveal
    it, and the homomorphic laws of the FHE operations: a [euint32] holds
    a 32-bit value and [fhe_add] wraps around. *)
Class Plaintexts (C : Capabilities) : Type := {
  decrypt : Z -> Z;
  decrypt_bool : Z -> bool;
  decrypt_range : forall h, 0 <= decrypt h <= MAX_UINT32;
  decrypt_asEuint32 : forall n, decrypt (asEuint32 n) = n mod 2 ^ 32;
  decrypt_eq : forall a b,
    decrypt_bool (fhe_eq a b) = bool_decide (decrypt a = decrypt b);
  decrypt_select : forall c a b,
    decrypt (fhe_select c a b) = if decrypt_bool c then decrypt a else decrypt b;
  decrypt_add : forall a b,
    decrypt (fhe_add a b) = (decrypt a + decrypt b) mod 2 ^ 32
}.

(** Handles: the zero handle is the uninitialised one, and the result of a
    homomorphic addition is an initialised handle. *)
Class HandleLaws (C : Capabilities) : Prop := {
  isInitialized_nonzero : forall h, isInitialized h = true -> h <> 0;
  fhe_add_initialized : forall a b, isInitialized (fhe_add a b) = true
}.

(** ** ABI encoding *)

(** [abi.encode(bytes32[] cts, address a)] as 32-byte words: the offset of
    the dynamic array (0x40), the address, the array length, the items. *)
Definition abi_encode (cts : list Z) (a : Z) : list Z :=
  64 :: a :: Z.of_nat (length cts) :: cts.

Fixpoint be_value (bs : list Byte.byte) (acc : Z) : Z :=
  match bs with
  | [] => acc
  | b :: rest => be_value rest (acc * 256 + Z.of_N (Byte.to_N b))
  end.

(** [abi.decode(data, (uint256))]: the first 32 bytes, big endian; shorter
    data reverts. *)
Definition abi_decode_uint256 (data : list Byte.byte) : Result Z :=
  if (length data <? 32)%nat then Revert DecodeFailure
  else Ok (be_value (take 32 data) 0).

(** [new bytes32[](n)]: a fresh memory array of zeros. *)
Definition new_bytes32_array (n : nat) : list Z := replicate n 0.

(** ** The contract *)

Section Contract.

Context {C : Capabilities}.

(** The world a call runs in: the contract's storage, the event log, the
    oracle, and the decryption requests issued to it so far (request id
    and ciphertext handles). *)
Record World : Type := mkWorld {
  storage : State;
  events : list Event;
  oracle : OracleState;
  oracleRequests : list (Z * list Z)
}.

Definition upd_storage (f : State -> State) (w : World) : World :=
  mkWorld (f (storage w)) (events w) (oracle w) (oracleRequests w).

Definition emit (e : Event) (w : World) : World :=
  mkWorld (storage w) (events w ++ [e]) (oracle w) (oracleRequests w).

(** A transaction: a revert rolls every effect back and reports the error. *)
Definition transact (f : World -> Result World) (w : World) : World * option Error :=
  match f w with
  | Ok w' => (w', None)
  | Revert e => (w, Some e)
  end.

(** *** Modifiers *)

Definition onlyOwner (env : Env) (w : World) : Result unit :=
  check (bool_decide (msg_sender env = owner (storage w))) NotOwner.

Definition onlyProvider (env : Env) (w : World) : Result unit :=
  check (get_isProvider (storage w) (msg_sender env)) NotProvider.

Definition whenNotPaused (w : World) : Result unit :=
  check (negb (paused (storage w))) PausedContract.

Definition checkSubmissionCooldown (env : Env) (w : World) : Result unit :=
  limit ← checked_add (get_lastSubmissionTime (storage w) (msg_sender env))
                      (cooldownSeconds (storage w));
  check (negb (block_timestamp env <? limit)) CooldownActive.

Definition checkDecryptionCooldown (env : Env) (w : World) : Result unit :=
  limit ← checked_add (get_lastDecryptionRequestTime (storage w) (msg_sender env))
                      (cooldownSeconds (storage w));
  check (negb (block_timestamp env <? limit)) CooldownActive.

(** *** Internal functions *)

Definition _openBatch (batchId : Z) (w : World) : World :=
  emit (BatchOpened batchId)
    (upd_storage (set_batch batchId (mkBatch batchId true)) w).

Definition _hashCiphertexts (env : Env) (cts : list Z) : Z :=
  keccak256 (abi_encode cts (this_address env)).

Definition _initIfNeeded (val : Z) : Result unit :=
  check (isInitialized val) NotInitialized.

(** *** Constructor *)

(** The constructor runs on zeroed storage and an empty log.  The inherited
    [SepoliaConfig] constructor only records the addresses of the FHE
    backend and touches no variable of this contract. *)
Definition constructor (env : Env) (o : OracleState) : World :=
  let w0 := mkWorld empty_state [] o [] in
  let w1 := upd_storage (set_owner (msg_sender env)) w0 in
  let w2 := upd_storage (set_isProvider (msg_sender env) true) w1 in
  let w3 := emit (ProviderAdded (msg_sender env)) w2 in
  let w4 := upd_storage (set_currentBatchId 1) w3 in
  let w5 := _openBatch (currentBatchId (storage w4)) w4 in
  upd_storage (set_cooldownSeconds 30) w5.

(** *** Access control *)

Definition transferOwnership (env : Env) (newOwner : Z) (w : World) : Result World :=
  onlyOwner env w;;
  check (negb (bool_decide (newOwner = 0))) (ErrorString "New owner is zero address");;
  let w1 := emit (OwnershipTransferred (owner (storage w)) newOwner) w in
  Ok (upd_storage (set_owner newOwner) w1).

Definition addProvider (env : Env) (provider : Z) (w : World) : Result World :=
  onlyOwner env w;;
  if negb (get_isProvider (storage w) provider) then
    let w1 := upd_storage (set_isProvider provider true) w in
    Ok (emit (ProviderAdded provider) w1)
  else Ok w.

Definition removeProvider (env : Env) (provider : Z) (w : World) : Result World :=
  onlyOwner env w;;
  if get_isProvider (storage w) provider then
    let w1 := upd_storage (set_isProvider provider false) w in
    Ok (emit (ProviderRemoved provider) w1)
  else Ok w.

Definition pause (env : Env) (w : World) : Result World :=
  onlyOwner env w;;
  whenNotPaused w;;
  let w1 := upd_storage (set_paused true) w in
  Ok (emit (Paused (msg_sender env)) w1).

Definition unpause (env : Env) (w : World) : Result World :=
  onlyOwner env w;;
  check (paused (storage w)) (ErrorString "Contract not paused");;
  let w1 := upd_storage (set_paused false) w in
  Ok (emit (Unpaused (msg_sender env)) w1).

Definition setCooldownSeconds (env : Env) (newCooldownSeconds : Z) (w : World) : Result World :=
  onlyOwner env w;;
  check (0 <? newCooldownSeconds) (ErrorString "Cooldown must be positive");;
  let w1 := emit (CooldownSecondsChanged (cooldownSeconds (storage w)) newCooldownSeconds) w in
  Ok (upd_storage (set_cooldownSeconds newCooldownSeconds) w1).

(** *** Batch ledger *)

Definition openNewBatch (env : Env) (w : World) : Result World :=
  onlyOwner env w;;
  whenNotPaused w;;
  next ← checked_add (currentBatchId (storage w)) 1;
  let w1 := upd_storage (set_currentBatchId next) w in
  Ok (_openBatch (currentBatchId (storage w1)) w1).

Definition closeCurrentBatch (env : Env) (w : World) : Result World :=
  onlyOwner env w;;
  whenNotPaused w;;
  let cur := currentBatchId (storage w) in
  if batch_open (get_batch (storage w) cur) then
    let w1 := upd_storage (set_batch cur (mkBatch (batch_id (get_batch (storage w) cur)) false)) w in
    Ok (emit (BatchClosed cur) w1)
  else Ok w.

Definition submitDocument (env : Env) (encId encContent : Z) (w : World) : Result World :=
  onlyProvider env w;;
  whenNotPaused w;;
  checkSubmissionCooldown env w;;
  _initIfNeeded encId;;
  _initIfNeeded encContent;;
  let cur := currentBatchId (storage w) in
  check (batch_open (get_batch (storage w) cur)) BatchClosedOrInvalid;;
  let w1 := upd_storage
    (set_batchDocuments cur (get_batchDocuments (storage w) cur ++ [mkDocument encId encContent])) w in
  let w2 := upd_storage (set_lastSubmissionTime (msg_sender env) (block_timestamp env)) w1 in
  Ok (emit (DocumentSubmitted (msg_sender env) cur encId) w2).

(** *** Encrypted search *)

(** The condition of the conditional [isMatch ? ... : ...] in the loop of
    [searchKeywordInBatch] is an [ebool], a [bytes32] handle.  Solidity
    has no conversion from [ebool] to [bool] and refuses the line as it
    is written.  The conditional is a plain one and makes no FHE call; it
    is embedded as the test a plain conditional makes on a word: the
    handle is not zero. *)
Definition ebool_as_condition (h : Z) : bool := negb (h =? 0).

(** One iteration of the loop of [searchKeywordInBatch]: the encrypted
    comparison, the plain conditional on its handle that picks the
    trivial encryption of 1 or of 0, and the addition into the
    accumulator. *)
Definition countStep (encryptedKeyword : Z) (encryptedCount : Z) (d : Document) : Z :=
  let isMatch := fhe_eq (encryptedContent d) encryptedKeyword in
  let matchAsUint :=
    if ebool_as_condition isMatch then asEuint32 1 else asEuint32 0 in
  fhe_add encryptedCount matchAsUint.

(** The whole loop, from [FHE.asEuint32(0)], over the documents in order. *)
Definition encryptedCountOf (docs : list Document) (encryptedKeyword : Z) : Z :=
  fold_left (countStep encryptedKeyword) docs (asEuint32 0).

(** The loop as the specification words it, to compare with the one of
    the source: the encrypted boolean is converted to an encrypted 0/1 by
    the encrypted selection of the backend, and added into the
    accumulator. *)
Definition spec_countStep (encryptedKeyword : Z) (encryptedCount : Z) (d : Document) : Z :=
  let isMatch := fhe_eq (encryptedContent d) encryptedKeyword in
  let matchAsUint := fhe_select isMatch (asEuint32 1) (asEuint32 0) in
  fhe_add encryptedCount matchAsUint.

Definition spec_encryptedCountOf (docs : list Document) (encryptedKeyword : Z) : Z :=
  fold_left (spec_countStep encryptedKeyword) docs (asEuint32 0).

(** [toBytes32] unwraps a [euint32] to the [bytes32] it is; handles are
    integers here and the unwrapping is the identity. *)
Definition searchKeywordInBatch (env : Env) (batchId encryptedKeyword : Z) (w : World)
  : Result World :=
  onlyProvider env w;;
  whenNotPaused w;;
  checkDecryptionCooldown env w;;
  _initIfNeeded encryptedKeyword;;
  check (negb ((batchId =? 0) || (currentBatchId (storage w) <? batchId)
               || negb (batch_open (get_batch (storage w) batchId))))
        InvalidBatchId;;
  check (negb (length (get_batchDocuments (storage w) batchId) =? 0)%nat)
        (ErrorString "No documents in batch");;
  let encryptedCount := encryptedCountOf (get_batchDocuments (storage w) batchId) encryptedKeyword in
  let cts := <[0%nat := encryptedCount]> (new_bytes32_array 1) in
  let stHash := _hashCiphertexts env cts in
  let '(requestId, o') := requestDecryption (oracle w) cts in
  let w1 := mkWorld (storage w) (events w) o' (oracleRequests w ++ [(requestId, cts)]) in
  let w2 := upd_storage (set_decryptionContext requestId (mkDecryptionContext batchId stHash false)) w1 in
  let w3 := upd_storage (set_lastDecryptionRequestTime (msg_sender env) (block_timestamp env)) w2 in
  Ok (emit (KeywordSearchRequested requestId batchId encryptedKeyword) w3).

(** *** Oracle callback *)

Definition myCallback (env : Env) (requestId : Z) (cleartexts proof : list Byte.byte) (w : World)
  : Result World :=
  check (negb (processed (get_decryptionContext (storage w) requestId))) ReplayAttempt;;
  let cts := new_bytes32_array 1 in
  check (bool_decide (stateHash (get_decryptionContext (storage w) requestId)
                      = keccak256 (abi_encode cts (this_address env))))
        StateMismatch;;
  check (checkSignatures (oracle w) requestId cleartexts proof) InvalidProof;;
  count ← abi_decode_uint256 cleartexts;
  let c := get_decryptionContext (storage w) requestId in
  let w1 := upd_storage
    (set_decryptionContext requestId (mkDecryptionContext (ctx_batchId c) (stateHash c) true)) w in
  Ok (emit (KeywordSearchCompleted requestId
              (ctx_batchId (get_decryptionContext (storage w1) requestId)) count) w1).

End Contract.

(** ** Calls and reachable worlds *)

Section Calls.

Context {C : Capabilities}.

(** The public and external functions of the contract, with their
    arguments. *)
Inductive Call : Type :=
| CallTransferOwnership (newOwner : Z)
| CallAddProvider (provider : Z)
| CallRemoveProvider (provider : Z)
| CallPause
| CallUnpause
| CallSetCooldownSeconds (newCooldownSeconds : Z)
| CallOpenNewBatch
| CallCloseCurrentBatch
| CallSubmitDocument (encId encContent : Z)
| CallSearchKeywordInBatch (batchId encryptedKeyword : Z)
| CallMyCallback (requestId : Z) (cleartexts proof : list Byte.byte).

Definition dispatch (env : Env) (c : Call) (w : World) : Result World :=
  match c with
  | CallTransferOwnership newOwner => transferOwnership env newOwner w
  | CallAddProvider provider => addProvider env provider w
  | CallRemoveProvider provider => removeProvider env provider w
  | CallPause => pause env w
  | CallUnpause => unpause env w
  | CallSetCooldownSeconds n => setCooldownSeconds env n w
  | CallOpenNewBatch => openNewBatch env w
  | CallCloseCurrentBatch => closeCurrentBatch env w
  | CallSubmitDocument encId encContent => submitDocument env encId encContent w
  | CallSearchKeywordInBatch batchId kw => searchKeywordInBatch env batchId kw w
  | CallMyCallback requestId cleartexts proof => myCallback env requestId cleartexts proof w
  end.

(** The world after a transaction that makes the call. *)
Definition execute (env : Env) (c : Call) (w : World) : World :=
  (transact (dispatch env c) w).1.

(** The world after a sequence of transactions, each with its own call
    environment. *)
Definition execute_all (cs : list (Env * Call)) (w : World) : World :=
  fold_left (fun w' ec => execute ec.1 ec.2 w') cs w.

(** The worlds of the contract deployed at address [self]: the world the
    constructor leaves, and every world a transaction on the contract
    leads to. *)
Inductive reachable (self : Z) : World -> Prop :=
| reachable_deployed (env : Env) (o : OracleState) :
    this_address env = self -> reachable self (constructor env o)
| reachable_execute (env : Env) (c : Call) (w : World) :
    reachable self w -> this_address env = self ->
    reachable self (execute env c w).

(** The shape of the ledger that every transaction keeps. *)
Record ledger_ok (w : World) : Prop := mk_ledger_ok {
  ledger_cooldown : 0 < cooldownSeconds (storage w);
  ledger_current : 1 <= currentBatchId (storage w);
  ledger_batches : forall i b, batches (storage w) !! i = Some b ->
    1 <= i <= currentBatchId (storage w) /\ batch_id b = i;
  ledger_batches_total : forall i, 1 <= i <= currentBatchId (storage w) ->
    is_Some (batches (storage w) !! i);
  ledger_documents : forall i ds, batchDocuments (storage w) !! i = Some ds ->
    1 <= i <= currentBatchId (storage w) /\
    Forall (fun d => isInitialized (encryptedId d) = true /\
                     isInitialized (encryptedContent d) = true) ds
}.

(** No request has been finalised: every stored context is unprocessed
    and holds the digest of an initialised handle, and the log has no
    search-completed notification. *)
Definition is_completion (e : Event) : bool :=
  match e with
  | KeywordSearchCompleted _ _ _ => true
  | _ => false
  end.

Definition nothing_finalised (self : Z) (w : World) : Prop :=
  (forall r c, decryptionContexts (storage w) !! r = Some c ->
     processed c = false /\
     exists h, h <> 0 /\ stateHash c = keccak256 (abi_encode [h] self)) /\
  forallb (fun e => negb (is_completion e)) (events w) = true.

End Calls.

(** ** The error taxonomy of the specification *)

Inductive ErrorKind : Type :=
| AuthorizationError
| LifecycleError
| RateLimitError
| ValidationError
| ReplayError
| IntegrityError
| AuthenticityError
| NotFoundError.

(** The kind under which each revert of the contract falls: wrong caller
    role; system paused or batch closed or nonexistent; cooldown not
    elapsed; uninitialised handle or empty batch; duplicate finalisation;
    state-hash mismatch; failed proof.  The arithmetic panic, the decoding
    failure and the [require] strings of the administrative functions have
    no kind of their own. *)
Definition kind_of (e : Error) : option ErrorKind :=
  match e with
  | NotOwner | NotProvider => Some AuthorizationError
  | PausedContract | BatchClosedOrInvalid | InvalidBatchId => Some LifecycleError
  | CooldownActive => Some RateLimitError
  | NotInitialized => Some ValidationError
  | ErrorString msg =>
      if String.eqb msg "No documents in batch" then Some ValidationError else None
  | ReplayAttempt => Some ReplayError
  | StateMismatch => Some IntegrityError
  | InvalidProof => Some AuthenticityError
  | Panic _ | DecodeFailure => None
  end.

(** ** A clear-text backend *)

(** A simulation of the imported capabilities in which a handle carries
    its plaintext: the handle of a 32-bit value [v] is [v + 1], the handle
    of an encrypted boolean is 1 (false) or 2 (true), and 0 is the
    uninitialised handle.  The digest is an injective numbering of word
    lists.  The oracle numbers its requests from 0, remembers the handles
    of each, and accepts a callback exactly when the cleartext payload is
    the plaintext of the requested handle. *)
Module ClearBackend.

Definition decrypt (h : Z) : Z := (h - 1) mod 2 ^ 32.
Definition decrypt_bool (h : Z) : bool := h =? 2.

Definition asEuint32 (n : Z) : Z := n mod 2 ^ 32 + 1.
Definition fhe_eq (a b : Z) : Z :=
  if bool_decide (decrypt a = decrypt b) then 2 else 1.
Definition fhe_select (c a b : Z) : Z := if decrypt_bool c then a else b.
Definition fhe_add (a b : Z) : Z := (decrypt a + decrypt b) mod 2 ^ 32 + 1.
Definition isInitialized (h : Z) : bool := negb (h =? 0).

Definition keccak256 (ws : list Z) : Z := Z.pos (encode ws).

Definition requestDecryption (o : list (list Z)) (cts : list Z) : Z * list (list Z) :=
  (Z.of_nat (length o), o ++ [cts]).

Definition checkSignatures (o : list (list Z)) (requestId : Z)
    (cleartexts proof : list Byte.byte) : bool :=
  (0 <=? requestId) &&
  match o !! Z.to_nat requestId, abi_decode_uint256 cleartexts with
  | Some [h], Ok v => v =? decrypt h
  | _, _ => false
  end.

Definition caps : Capabilities :=
  Build_Capabilities asEuint32 fhe_eq fhe_select fhe_add isInitialized
    keccak256 (list (list Z)) requestDecryption checkSignatures.

(** The encoding of a 32-bit count as a 32-byte big-endian payload. *)
Definition payload_of (n : Z) : list Byte.byte :=
  replicate 31 Byte.x00 ++
  [default Byte.x00 (Byte.of_N (Z.to_N n))].

End ClearBackend.

(** ** Observations used in the statements *)

(** The number of documents whose content decrypts to the plaintext of
    the keyword. *)
Definition matchCount {C : Capabilities} {P : Plaintexts C}
    (docs : list Document) (encryptedKeyword : Z) : Z :=
  Z.of_nat (length
    (filter (fun d => decrypt (encryptedContent d) = decrypt encryptedKeyword) docs)).

(** The counts recorded for one request: those of its search-completed
    notifications, in order. *)
Definition completion_of (requestId : Z) (e : Event) : option Z :=
  match e with
  | KeywordSearchCompleted r _ count =>
      if bool_decide (r = requestId) then Some count else None
  | _ => None
  end.

Definition completions (requestId : Z) (evs : list Event) : list Z :=
  omap (completion_of requestId) evs.

(** The handle of an encrypted comparison is never the zero handle. *)
Definition comparison_handles_nonzero {C : Capabilities} : Prop :=
  forall a b : Z, fhe_eq a b <> 0.

(** A digest without collisions. *)
Definition collision_free {C : Capabilities} : Prop :=
  forall x y : list Z, keccak256 x = keccak256 y -> x = y.

(** ** Concrete runs on the clear-text backend *)

Module Scenario.
Import ClearBackend.

(** Account 1 deploys the contract, whose address is 99. *)
Definition at_time (sender t : Z) : Env := mkEnv sender t 99.

Definition run (f : World (C := caps) -> Result (World (C := caps)))
    (w : World (C := caps)) : World (C := caps) :=
  (transact f w).1.

Definition w_deployed : World (C := caps) :=
  constructor (C := caps) (at_time 1 0) [].

(** The owner opens a second batch. *)
Definition w_two_batches : World (C := caps) :=
  run (openNewBatch (at_time 1 50)) w_deployed.

(** The owner pauses the system. *)
Definition w_paused : World (C := caps) :=
  run (pause (at_time 1 50)) w_deployed.

(** One document, submitted at time 100. *)
Definition w_one_document : World (C := caps) :=
  run (submitDocument (at_time 1 100) (asEuint32 1) (asEuint32 5)) w_deployed.

(** Then the owner sets the largest cooldown a [uint256] holds. *)
Definition w_max_cooldown : World (C := caps) :=
  run (setCooldownSeconds (at_time 1 150) MAX_UINT256) w_one_document.

(** Three documents with contents 5, 7 and 5. *)
Definition w_three_documents : World (C := caps) :=
  run (submitDocument (at_time 1 300) (asEuint32 3) (asEuint32 5))
    (run (submitDocument (at_time 1 200) (asEuint32 2) (asEuint32 7))
       w_one_document).

(** Searches for 5 and for 9 in batch 1. *)
Definition w_searched_5 : World (C := caps) :=
  run (searchKeywordInBatch (at_time 1 400) 1 (asEuint32 5)) w_three_documents.

Definition w_searched_9 : World (C := caps) :=
  run (searchKeywordInBatch (at_time 1 400) 1 (asEuint32 9)) w_three_documents.

(** A world in which request 3 is recorded as processed. *)
Definition w_processed : World (C := caps) :=
  upd_storage (set_decryptionContext 3 (mkDecryptionContext 1 0 true)) w_deployed.

End Scenario.

(** * Properties *)

(** ** The result monad and the checks *)

Lemma bind_Ok {A B : Type} (a : A) (k : A -> Result B) : (Ok a ≫= k) = k a.
Proof. reflexivity. Qed.

Lemma bind_Revert {A B : Type} (e : Error) (k : A -> Result B) :
  (Revert e ≫= k) = Revert e.
Proof. reflexivity. Qed.

Lemma bind_Ok_inv {A B : Type} (m : Result A) (k : A -> Result B) (b : B) :
  (m ≫= k) = Ok b -> exists a, m = Ok a /\ k a = Ok b.
Proof. destruct m as [a|e]; [eauto | discriminate]. Qed.

Lemma error_of_Revert {A : Type} (r : Result A) (e : Error) :
  error_of r = Some e -> r = Revert e.
Proof. destruct r; [discriminate | now intros [= ->]]. Qed.

Lemma check_true (e : Error) : check true e = Ok tt.
Proof. reflexivity. Qed.

Lemma check_false (e : Error) : check false e = Revert e.
Proof. reflexivity. Qed.

Lemma check_Ok_inv (b : bool) (e : Error) (u : unit) : check b e = Ok u -> b = true.
Proof. destruct b; [reflexivity | discriminate]. Qed.

Lemma checked_add_Ok (a b : Z) :
  a + b <= MAX_UINT256 -> checked_add a b = Ok (a + b).
Proof. intros H. unfold checked_add. apply Z.leb_le in H. now rewrite H. Qed.

Lemma checked_add_overflow (a b : Z) :
  MAX_UINT256 < a + b -> checked_add a b = Revert (Panic 17).
Proof. intros H. unfold checked_add. apply Z.leb_gt in H. now rewrite H. Qed.

Lemma checked_add_Ok_inv (a b c : Z) :
  checked_add a b = Ok c -> c = a + b /\ a + b <= MAX_UINT256.
Proof.
  unfold checked_add. destruct (a + b <=? MAX_UINT256) eqn:E; [|discriminate].
  intros [= <-]. split; [reflexivity | now apply Z.leb_le].
Qed.

(** Every step of an entry point that can revert, split into its outcome. *)
Ltac unfold_gates :=
  unfold onlyOwner, onlyProvider, whenNotPaused, checkSubmissionCooldown,
    checkDecryptionCooldown, _initIfNeeded in *.

Ltac step_Ok H :=
  let u := fresh "u" in
  let Hc := fresh "Hc" in
  cbv zeta in H; apply bind_Ok_inv in H; destruct H as (u & Hc & H).

(** ** Transactions *)

Section Transactions.

Context {C : Capabilities}.

Lemma transact_Revert (f : World -> Result World) (w : World) (e : Error) :
  f w = Revert e -> transact f w = (w, Some e).
Proof. intros H. unfold transact. now rewrite H. Qed.

Lemma transact_Ok (f : World -> Result World) (w w' : World) :
  f w = Ok w' -> transact f w = (w', None).
Proof. intros H. unfold transact. now rewrite H. Qed.

(** A failed call leaves the world as it was. *)
Lemma transact_failure_frame (f : World -> Result World) (w : World) (e : Error) :
  (transact f w).2 = Some e -> (transact f w).1 = w.
Proof. unfold transact. destruct (f w); simpl; [discriminate | reflexivity]. Qed.

End Transactions.

(** ** The clear-text backend satisfies the laws *)

Module ClearBackendLaws.
Import ClearBackend.

Lemma clear_decrypt_range h : 0 <= decrypt h <= MAX_UINT32.
Proof.
  unfold decrypt, MAX_UINT32.
  pose proof (Z.mod_pos_bound (h - 1) (2 ^ 32) ltac:(lia)). lia.
Qed.

Lemma clear_decrypt_asEuint32 n : decrypt (asEuint32 n) = n mod 2 ^ 32.
Proof.
  unfold decrypt, asEuint32. replace (n mod 2 ^ 32 + 1 - 1) with (n mod 2 ^ 32) by lia.
  apply Z.mod_mod. lia.
Qed.

Lemma clear_decrypt_eq a b :
  decrypt_bool (fhe_eq a b) = bool_decide (decrypt a = decrypt b).
Proof. unfold fhe_eq, decrypt_bool. now case_bool_decide. Qed.

Lemma clear_decrypt_select c a b :
  decrypt (fhe_select c a b) = if decrypt_bool c then decrypt a else decrypt b.
Proof. unfold fhe_select. now destruct (decrypt_bool c). Qed.

Lemma clear_decrypt_add a b :
  decrypt (fhe_add a b) = (decrypt a + decrypt b) mod 2 ^ 32.
Proof.
  unfold fhe_add. unfold decrypt at 1.
  replace ((decrypt a + decrypt b) mod 2 ^ 32 + 1 - 1)
    with ((decrypt a + decrypt b) mod 2 ^ 32) by lia.
  apply Z.mod_mod. lia.
Qed.

Lemma clear_isInitialized_nonzero h : isInitialized h = true -> h <> 0.
Proof. unfold isInitialized. intros H ->. discriminate. Qed.

Lemma clear_fhe_add_initialized a b : isInitialized (fhe_add a b) = true.
Proof.
  unfold isInitialized, fhe_add.
  pose proof (Z.mod_pos_bound (decrypt a + decrypt b) (2 ^ 32) ltac:(lia)).
  apply negb_true_iff, Z.eqb_neq. lia.
Qed.

Lemma keccak256_collision_free : collision_free (C := caps).
Proof.
  intros x y H. unfold keccak256 in H. simpl in H. unfold keccak256 in H.
  injection H as H. now apply (inj encode) in H.
Qed.

Definition plain : Plaintexts caps :=
  Build_Plaintexts caps decrypt decrypt_bool clear_decrypt_range clear_decrypt_asEuint32
    clear_decrypt_eq clear_decrypt_select clear_decrypt_add.

Definition handles : HandleLaws caps :=
  Build_HandleLaws caps clear_isInitialized_nonzero clear_fhe_add_initialized.

End ClearBackendLaws.

(** ** Initialisation and the batch ledger *)

Section Ledger.

Context {C : Capabilities}.

Lemma get_batch_set_batch_eq (i : Z) (b : Batch) (s : State) :
  get_batch (set_batch i b s) i = b.
Proof. unfold get_batch, set_batch. simpl. now rewrite lookup_insert_eq. Qed.

Lemma get_batch_set_batch_ne (i j : Z) (b : Batch) (s : State) :
  i <> j -> get_batch (set_batch i b s) j = get_batch s j.
Proof. intros H. unfold get_batch, set_batch. simpl. now rewrite lookup_insert_ne. Qed.

(** C10. The constructor makes the deployer the owner and a provider, sets
    the cooldown to the positive default of 30 seconds and opens batch 1
    as the current batch; on the constructed world the deployer passes the
    provider gate of [submitDocument] with no [addProvider] call: with
    initialised handles and a timestamp of at least the cooldown the
    document is appended to batch 1. *)
Theorem constructor_deployer_is_owner_and_provider (env : Env) (o : OracleState) :
  let w := constructor env o in
  owner (storage w) = msg_sender env /\
  get_isProvider (storage w) (msg_sender env) = true /\
  cooldownSeconds (storage w) = 30 /\
  0 < cooldownSeconds (storage w) /\
  currentBatchId (storage w) = 1 /\
  get_batch (storage w) 1 = mkBatch 1 true /\
  events w = [ProviderAdded (msg_sender env); BatchOpened 1] /\
  (forall env' encId encContent, msg_sender env' = msg_sender env ->
     onlyProvider env' w = Ok tt /\
     (isInitialized encId = true -> isInitialized encContent = true ->
      30 <= block_timestamp env' ->
      exists w', submitDocument env' encId encContent w = Ok w' /\
        get_batchDocuments (storage w') 1 = [mkDocument encId encContent] /\
        events w' = events w ++ [DocumentSubmitted (msg_sender env) 1 encId])).
Proof.
  assert (Hprov : get_isProvider (storage (constructor env o)) (msg_sender env) = true).
  { unfold get_isProvider. simpl. now rewrite lookup_insert_eq. }
  assert (Hbatch : get_batch (storage (constructor env o)) 1 = mkBatch 1 true).
  { unfold get_batch. simpl. now rewrite lookup_insert_eq. }
  cbv zeta. repeat split; try assumption; try reflexivity.
  - unfold onlyProvider. rewrite H. now rewrite Hprov.
  - intros Hid Hcontent Htime.
    unfold submitDocument. unfold_gates.
    rewrite H, Hprov, Hid, Hcontent. simpl.
    unfold checked_add, get_lastSubmissionTime. simpl.
    rewrite lookup_empty. simpl.
    destruct (block_timestamp env' <? 30) eqn:E; [apply Z.ltb_lt in E; lia|].
    change (0 + 30) with 30. rewrite E. simpl.
    unfold get_batch at 1. simpl. rewrite lookup_insert_eq. simpl.
    eexists. split; [reflexivity|]. split; [|reflexivity].
    unfold get_batchDocuments. simpl. rewrite lookup_insert_eq.
    now rewrite lookup_empty.
Qed.

(** C7. A successful [openNewBatch] allocates the next id, opens it and
    makes it current; no other batch entry changes, so the previous
    current batch keeps its open flag and, when it was open, is open
    together with the new one.  Of the storage only [currentBatchId] and
    the new batch entry change; the batch-opened notification is logged. *)
Theorem openNewBatch_keeps_previous_batch (env : Env) (w w' : World) :
  openNewBatch env w = Ok w' ->
  let prev := currentBatchId (storage w) in
  currentBatchId (storage w') = prev + 1 /\
  get_batch (storage w') (prev + 1) = mkBatch (prev + 1) true /\
  (forall i, i <> prev + 1 -> batches (storage w') !! i = batches (storage w) !! i) /\
  batch_open (get_batch (storage w') prev) = batch_open (get_batch (storage w) prev) /\
  (batch_open (get_batch (storage w) prev) = true ->
     batch_open (get_batch (storage w') prev) = true /\
     batch_open (get_batch (storage w') (prev + 1)) = true /\
     prev <> prev + 1) /\
  storage w' = set_batch (prev + 1) (mkBatch (prev + 1) true)
                 (set_currentBatchId (prev + 1) (storage w)) /\
  events w' = events w ++ [BatchOpened (prev + 1)] /\
  oracle w' = oracle w /\
  oracleRequests w' = oracleRequests w.
Proof.
  intros H prev. unfold openNewBatch in H.
  step_Ok H. step_Ok H.
  apply bind_Ok_inv in H. destruct H as (next & Hnext & H).
  apply checked_add_Ok_inv in Hnext. destruct Hnext as [-> _].
  injection H as <-. fold prev.
  assert (Hprev : get_batch (storage (_openBatch (prev + 1)
              (upd_storage (set_currentBatchId (prev + 1)) w))) prev
            = get_batch (storage w) prev).
  { simpl. rewrite get_batch_set_batch_ne by lia. reflexivity. }
  simpl. repeat split.
  - apply get_batch_set_batch_eq.
  - intros i Hi. now rewrite lookup_insert_ne.
  - simpl in Hprev. now rewrite Hprev.
  - simpl in Hprev. rewrite Hprev. assumption.
  - now rewrite get_batch_set_batch_eq.
  - lia.
Qed.

End Ledger.

(** ** The oracle callback *)

Section Callback.

Context {C : Capabilities}.

Lemma get_decryptionContext_set_eq (r : Z) (c : DecryptionContext) (s : State) :
  get_decryptionContext (set_decryptionContext r c s) r = c.
Proof.
  unfold get_decryptionContext, set_decryptionContext. simpl.
  now rewrite lookup_insert_eq.
Qed.

Lemma get_decryptionContext_set_ne (r r' : Z) (c : DecryptionContext) (s : State) :
  r <> r' ->
  get_decryptionContext (set_decryptionContext r c s) r' = get_decryptionContext s r'.
Proof.
  intros H. unfold get_decryptionContext, set_decryptionContext. simpl.
  now rewrite lookup_insert_ne.
Qed.

Lemma kind_of_never_NotFound (e : Error) : kind_of e <> Some NotFoundError.
Proof.
  destruct e; simpl; try discriminate.
  destruct (String.eqb msg "No documents in batch"); discriminate.
Qed.

(** The callback on a request already processed. *)
Lemma myCallback_processed (env : Env) (requestId : Z)
    (cleartexts proof : list Byte.byte) (w : World) :
  processed (get_decryptionContext (storage w) requestId) = true ->
  myCallback env requestId cleartexts proof w = Revert ReplayAttempt.
Proof. intros H. unfold myCallback. now rewrite H. Qed.

(** What a successful callback does. *)
Lemma myCallback_Ok_inv (env : Env) (requestId : Z)
    (cleartexts proof : list Byte.byte) (w w' : World) :
  myCallback env requestId cleartexts proof w = Ok w' ->
  processed (get_decryptionContext (storage w) requestId) = false /\
  exists count,
    abi_decode_uint256 cleartexts = Ok count /\
    w' = emit (KeywordSearchCompleted requestId
                 (ctx_batchId (get_decryptionContext (storage w) requestId)) count)
           (upd_storage (set_decryptionContext requestId
              (mkDecryptionContext
                 (ctx_batchId (get_decryptionContext (storage w) requestId))
                 (stateHash (get_decryptionContext (storage w) requestId)) true)) w).
Proof.
  intros H. unfold myCallback in H.
  step_Ok H. apply check_Ok_inv, negb_true_iff in Hc.
  step_Ok H. step_Ok H.
  apply bind_Ok_inv in H. destruct H as (count & Hcount & H).
  split; [assumption|]. exists count. split; [assumption|].
  injection H as <-. simpl. now rewrite get_decryptionContext_set_eq.
Qed.

(** The callback on a request with an empty slot of the context table. *)
Lemma myCallback_absent (env : Env) (requestId : Z)
    (cleartexts proof : list Byte.byte) (w : World) :
  decryptionContexts (storage w) !! requestId = None ->
  keccak256 (abi_encode (new_bytes32_array 1) (this_address env)) <> 0 ->
  myCallback env requestId cleartexts proof w = Revert StateMismatch.
Proof.
  intros Habs Hne. unfold myCallback, get_decryptionContext.
  rewrite Habs. simpl. case_bool_decide as E; [|reflexivity].
  exfalso. apply Hne. symmetry. exact E.
Qed.

(** C3 (as amended). The contract has no existence check and no NotFound
    error: a request id with no stored context reads as the zero context,
    so the callback is not a replay and fails at the state-hash check with
    [StateMismatch] (an Integrity error) whenever the digest of the
    placeholder array is not zero, and the world is unchanged.  No revert
    of the contract is of the NotFound kind. *)
Theorem myCallback_unknown_request_fails_integrity (env : Env) (requestId : Z)
    (cleartexts proof : list Byte.byte) (w : World) :
  decryptionContexts (storage w) !! requestId = None ->
  keccak256 (abi_encode (new_bytes32_array 1) (this_address env)) <> 0 ->
  myCallback env requestId cleartexts proof w = Revert StateMismatch /\
  kind_of StateMismatch = Some IntegrityError /\
  transact (myCallback env requestId cleartexts proof) w = (w, Some StateMismatch) /\
  (forall e, kind_of e <> Some NotFoundError).
Proof.
  intros Habs Hne.
  pose proof (myCallback_absent env requestId cleartexts proof w Habs Hne) as H.
  repeat split; try assumption.
  - now apply transact_Revert.
  - apply kind_of_never_NotFound.
Qed.

(** C4. Once a request is processed, every further callback for it fails
    with [ReplayAttempt] (a Replay error) and leaves the world as it was.
    The flag never goes back to false through a callback, whichever
    request that callback is for, and the counts recorded for the request
    stay the same; a callback that succeeds finds the flag false and sets
    it, so it is set at most once. *)
Theorem myCallback_replay_rejected (env : Env) (requestId : Z)
    (cleartexts proof : list Byte.byte) (w : World) :
  processed (get_decryptionContext (storage w) requestId) = true ->
  myCallback env requestId cleartexts proof w = Revert ReplayAttempt /\
  kind_of ReplayAttempt = Some ReplayError /\
  transact (myCallback env requestId cleartexts proof) w = (w, Some ReplayAttempt) /\
  (forall env' r' cl pf,
     let w' := (transact (myCallback env' r' cl pf) w).1 in
     processed (get_decryptionContext (storage w') requestId) = true /\
     completions requestId (events w') = completions requestId (events w)) /\
  (forall env' cl pf w1 w2,
     myCallback env' requestId cl pf w1 = Ok w2 ->
     processed (get_decryptionContext (storage w1) requestId) = false /\
     processed (get_decryptionContext (storage w2) requestId) = true).
Proof.
  intros Hp.
  pose proof (myCallback_processed env requestId cleartexts proof w Hp) as Hrev.
  split; [assumption|]. split; [reflexivity|].
  split; [now apply transact_Revert|]. split.
  - intros env' r' cl pf. cbv zeta. unfold transact.
    destruct (myCallback env' r' cl pf w) as [w2|e] eqn:E; simpl; [|now split].
    destruct (decide (r' = requestId)) as [->|Hne].
    { rewrite (myCallback_processed env' requestId cl pf w Hp) in E. discriminate. }
    apply myCallback_Ok_inv in E. destruct E as (_ & count & _ & ->). simpl.
    rewrite get_decryptionContext_set_ne by assumption. split; [assumption|].
    unfold completions. rewrite omap_app. simpl.
    case_bool_decide; [contradiction|]. now rewrite app_nil_r.
  - intros env' cl pf w1 w2 E.
    apply myCallback_Ok_inv in E. destruct E as (Hf & count & _ & ->).
    split; [assumption|]. simpl. now rewrite get_decryptionContext_set_eq.
Qed.

End Callback.

(** ** Gates of the mutating entry points *)

Section Gates.

Context {C : Capabilities}.

Lemma onlyOwner_other (env : Env) (w : World) :
  msg_sender env <> owner (storage w) -> onlyOwner env w = Revert NotOwner.
Proof. intros H. unfold onlyOwner. now rewrite bool_decide_eq_false_2. Qed.

Lemma onlyOwner_owner (env : Env) (w : World) :
  msg_sender env = owner (storage w) -> onlyOwner env w = Ok tt.
Proof. intros H. unfold onlyOwner. now rewrite bool_decide_eq_true_2. Qed.

Lemma onlyOwner_Ok_inv (env : Env) (w : World) (u : unit) :
  onlyOwner env w = Ok u -> msg_sender env = owner (storage w).
Proof. unfold onlyOwner. intros H%check_Ok_inv. now apply bool_decide_eq_true in H. Qed.

(** The cooldown comparison, once the sum is in range. *)
Lemma cooldown_active (last cd now : Z) :
  last + cd <= MAX_UINT256 -> now < last + cd ->
  (limit ← checked_add last cd; check (negb (now <? limit)) CooldownActive)
  = Revert CooldownActive.
Proof.
  intros Hr Hlt. rewrite checked_add_Ok by assumption. rewrite bind_Ok.
  apply Z.ltb_lt in Hlt. now rewrite Hlt.
Qed.

Lemma cooldown_overflow (last cd now : Z) :
  MAX_UINT256 < last + cd ->
  (limit ← checked_add last cd; check (negb (now <? limit)) CooldownActive)
  = Revert (Panic 17).
Proof. intros H. now rewrite checked_add_overflow by assumption. Qed.

Lemma cooldown_Ok_inv (last cd now : Z) (u : unit) :
  (limit ← checked_add last cd; check (negb (now <? limit)) CooldownActive) = Ok u ->
  last + cd <= MAX_UINT256 /\ last + cd <= now.
Proof.
  intros H. apply bind_Ok_inv in H. destruct H as (limit & Hl & H).
  apply checked_add_Ok_inv in Hl. destruct Hl as [-> Hr].
  apply check_Ok_inv, negb_true_iff, Z.ltb_ge in H. now split.
Qed.

(** What a successful submission does. *)
Lemma submitDocument_Ok_inv (env : Env) (encId encContent : Z) (w w' : World) :
  submitDocument env encId encContent w = Ok w' ->
  let s := storage w in
  let cur := currentBatchId s in
  get_isProvider s (msg_sender env) = true /\
  paused s = false /\
  get_lastSubmissionTime s (msg_sender env) + cooldownSeconds s <= block_timestamp env /\
  isInitialized encId = true /\ isInitialized encContent = true /\
  batch_open (get_batch s cur) = true /\
  w' = emit (DocumentSubmitted (msg_sender env) cur encId)
         (upd_storage (set_lastSubmissionTime (msg_sender env) (block_timestamp env))
            (upd_storage (set_batchDocuments cur
               (get_batchDocuments s cur ++ [mkDocument encId encContent])) w)).
Proof.
  intros H. unfold submitDocument in H.
  step_Ok H. apply check_Ok_inv in Hc.
  step_Ok H. apply check_Ok_inv, negb_true_iff in Hc0.
  step_Ok H. apply cooldown_Ok_inv in Hc1. destruct Hc1 as [_ Hc1].
  step_Ok H. apply check_Ok_inv in Hc2.
  step_Ok H. apply check_Ok_inv in Hc3.
  step_Ok H. apply check_Ok_inv in Hc4.
  injection H as <-. cbv zeta. repeat split; assumption.
Qed.

(** What a successful search does. *)
Lemma searchKeywordInBatch_Ok_inv (env : Env) (batchId kw : Z) (w w' : World) :
  searchKeywordInBatch env batchId kw w = Ok w' ->
  let s := storage w in
  let docs := get_batchDocuments s batchId in
  let cts := [encryptedCountOf docs kw] in
  let requestId := (requestDecryption (oracle w) cts).1 in
  get_isProvider s (msg_sender env) = true /\
  paused s = false /\
  get_lastDecryptionRequestTime s (msg_sender env) + cooldownSeconds s
    <= block_timestamp env /\
  isInitialized kw = true /\
  (batchId <> 0 /\ batchId <= currentBatchId s /\
   batch_open (get_batch s batchId) = true) /\
  docs <> [] /\
  w' = emit (KeywordSearchRequested requestId batchId kw)
         (upd_storage (set_lastDecryptionRequestTime (msg_sender env) (block_timestamp env))
            (upd_storage (set_decryptionContext requestId
                 (mkDecryptionContext batchId (_hashCiphertexts env cts) false))
               (mkWorld s (events w) (requestDecryption (oracle w) cts).2
                  (oracleRequests w ++ [(requestId, cts)])))).
Proof.
  intros H. unfold searchKeywordInBatch in H.
  step_Ok H. apply check_Ok_inv in Hc.
  step_Ok H. apply check_Ok_inv, negb_true_iff in Hc0.
  step_Ok H. apply cooldown_Ok_inv in Hc1. destruct Hc1 as [_ Hc1].
  step_Ok H. apply check_Ok_inv in Hc2.
  step_Ok H. apply check_Ok_inv, negb_true_iff in Hc3.
  apply orb_false_iff in Hc3. destruct Hc3 as [Hrange Hopen].
  apply orb_false_iff in Hrange. destruct Hrange as [Hz Hle].
  apply Z.eqb_neq in Hz. apply Z.ltb_ge in Hle. apply negb_false_iff in Hopen.
  step_Ok H. rename Hc3 into Hc4. apply check_Ok_inv, negb_true_iff, Nat.eqb_neq in Hc4.
  cbv zeta. simpl in H.
  destruct (requestDecryption (oracle w)
              [encryptedCountOf (get_batchDocuments (storage w) batchId) kw])
    as [requestId o'] eqn:E.
  injection H as <-. simpl.
  repeat split; try assumption.
  intros Hnil. rewrite Hnil in Hc4. now apply Hc4.
Qed.

(** C5 (as amended). The modifiers of the gated entry points run in the
    order written in their headers: the caller's role first, then the
    pause flag, then the cooldown, and only then the checks of the body.
    A caller without the role gets the Authorization error also when the
    system is paused; a caller with the role gets the paused error before
    any cooldown check; the cooldown error comes before the checks of the
    body.  A failed call leaves the world as it was. *)
Theorem gates_role_then_pause_then_cooldown (env : Env) (w : World) :
  let s := storage w in
  let sender := msg_sender env in
  (get_isProvider s sender = false ->
     (forall a b, submitDocument env a b w = Revert NotProvider) /\
     (forall i k, searchKeywordInBatch env i k w = Revert NotProvider)) /\
  (sender <> owner s ->
     openNewBatch env w = Revert NotOwner /\
     closeCurrentBatch env w = Revert NotOwner) /\
  (get_isProvider s sender = true -> paused s = true ->
     (forall a b, submitDocument env a b w = Revert PausedContract) /\
     (forall i k, searchKeywordInBatch env i k w = Revert PausedContract)) /\
  (sender = owner s -> paused s = true ->
     openNewBatch env w = Revert PausedContract /\
     closeCurrentBatch env w = Revert PausedContract) /\
  (get_isProvider s sender = true -> paused s = false ->
     (get_lastSubmissionTime s sender + cooldownSeconds s <= MAX_UINT256 ->
      block_timestamp env < get_lastSubmissionTime s sender + cooldownSeconds s ->
      forall a b, submitDocument env a b w = Revert CooldownActive) /\
     (get_lastDecryptionRequestTime s sender + cooldownSeconds s <= MAX_UINT256 ->
      block_timestamp env < get_lastDecryptionRequestTime s sender + cooldownSeconds s ->
      forall i k, searchKeywordInBatch env i k w = Revert CooldownActive)) /\
  (forall a b e, submitDocument env a b w = Revert e ->
     e = NotInitialized \/ e = BatchClosedOrInvalid ->
     get_isProvider s sender = true /\ paused s = false /\
     get_lastSubmissionTime s sender + cooldownSeconds s <= block_timestamp env) /\
  (forall i k e, searchKeywordInBatch env i k w = Revert e ->
     e = NotInitialized \/ e = InvalidBatchId \/ e = ErrorString "No documents in batch" ->
     get_isProvider s sender = true /\ paused s = false /\
     get_lastDecryptionRequestTime s sender + cooldownSeconds s <= block_timestamp env) /\
  (forall (f : World -> Result World) e,
     (transact f w).2 = Some e -> (transact f w).1 = w).
Proof.
  cbv zeta. repeat apply conj.
  - intros Hp. split; intros; [unfold submitDocument | unfold searchKeywordInBatch];
      unfold onlyProvider; now rewrite Hp.
  - intros Ho. split; [unfold openNewBatch | unfold closeCurrentBatch];
      now rewrite onlyOwner_other.
  - intros Hp Hpa. split; intros; [unfold submitDocument | unfold searchKeywordInBatch];
      unfold onlyProvider, whenNotPaused; now rewrite Hp, Hpa.
  - intros Ho Hpa. split; [unfold openNewBatch | unfold closeCurrentBatch];
      rewrite onlyOwner_owner by assumption; unfold whenNotPaused; now rewrite Hpa.
  - intros Hp Hpa. split; intros Hr Hlt; intros;
      [unfold submitDocument, checkSubmissionCooldown
      | unfold searchKeywordInBatch, checkDecryptionCooldown];
      unfold onlyProvider, whenNotPaused; rewrite Hp, Hpa; simpl;
      now rewrite cooldown_active.
  - intros a b e H He. unfold submitDocument in H. unfold_gates.
    destruct (get_isProvider (storage w) (msg_sender env));
      [|simpl in H; injection H as <-; destruct He; discriminate].
    destruct (paused (storage w));
      [simpl in H; injection H as <-; destruct He; discriminate|].
    simpl in H.
    destruct (checked_add _ _) as [limit|e'] eqn:Hl;
      [|simpl in H; injection H as <-; unfold checked_add in Hl;
        destruct (_ <=? _) in Hl; [discriminate|];
        injection Hl as <-; destruct He; discriminate].
    apply checked_add_Ok_inv in Hl. destruct Hl as [-> _]. simpl in H.
    destruct (block_timestamp env <? _) eqn:Hlt;
      [simpl in H; injection H as <-; destruct He; discriminate|].
    apply Z.ltb_ge in Hlt. auto.
  - intros i k e H He. unfold searchKeywordInBatch in H. unfold_gates.
    destruct (get_isProvider (storage w) (msg_sender env));
      [|simpl in H; injection H as <-; destruct He as [|[|]]; discriminate].
    destruct (paused (storage w));
      [simpl in H; injection H as <-; destruct He as [|[|]]; discriminate|].
    simpl in H.
    destruct (checked_add _ _) as [limit|e'] eqn:Hl;
      [|simpl in H; injection H as <-; unfold checked_add in Hl;
        destruct (_ <=? _) in Hl; [discriminate|];
        injection Hl as <-; destruct He as [|[|]]; discriminate].
    apply checked_add_Ok_inv in Hl. destruct Hl as [-> _]. simpl in H.
    destruct (block_timestamp env <? _) eqn:Hlt;
      [simpl in H; injection H as <-; destruct He as [|[|]]; discriminate|].
    apply Z.ltb_ge in Hlt. auto.
  - intros f e. apply transact_failure_frame.
Qed.

(** C6. A search on a batch that exists, is open and has no document
    always fails, and the failed call registers no context and sends
    nothing to the oracle; once the gates before it are passed (provider,
    not paused, cooldown elapsed, keyword initialised) the failure is the
    explicit empty-batch revert, a Validation error. *)
Theorem searchKeywordInBatch_empty_batch_fails (env : Env) (batchId kw : Z) (w : World) :
  1 <= batchId <= currentBatchId (storage w) ->
  batch_open (get_batch (storage w) batchId) = true ->
  get_batchDocuments (storage w) batchId = [] ->
  let w' := (transact (searchKeywordInBatch env batchId kw) w).1 in
  (exists e, searchKeywordInBatch env batchId kw w = Revert e) /\
  (get_isProvider (storage w) (msg_sender env) = true ->
   paused (storage w) = false ->
   checkDecryptionCooldown env w = Ok tt ->
   isInitialized kw = true ->
   searchKeywordInBatch env batchId kw w = Revert (ErrorString "No documents in batch")) /\
  kind_of (ErrorString "No documents in batch") = Some ValidationError /\
  w' = w /\
  decryptionContexts (storage w') = decryptionContexts (storage w) /\
  oracleRequests w' = oracleRequests w /\
  oracle w' = oracle w.
Proof.
  intros Hrange Hopen Hempty.
  assert (Hfail : exists e, searchKeywordInBatch env batchId kw w = Revert e).
  { destruct (searchKeywordInBatch env batchId kw w) as [w2|e] eqn:E; [|eauto].
    apply searchKeywordInBatch_Ok_inv in E. cbv zeta in E.
    destruct E as (_ & _ & _ & _ & _ & Hne & _). contradiction. }
  assert (Hframe : (transact (searchKeywordInBatch env batchId kw) w).1 = w).
  { destruct Hfail as [e He]. now rewrite (transact_Revert _ _ _ He). }
  cbv zeta. rewrite Hframe. repeat split; try assumption.
  intros Hp Hpa Hcd Hinit. unfold searchKeywordInBatch.
  unfold onlyProvider, whenNotPaused, _initIfNeeded.
  rewrite Hp, Hpa, Hcd, Hinit, Hopen, Hempty. simpl.
  replace (batchId =? 0) with false by (symmetry; apply Z.eqb_neq; lia).
  replace (currentBatchId (storage w) <? batchId) with false
    by (symmetry; apply Z.ltb_ge; lia).
  reflexivity.
Qed.

End Gates.

(** ** Rate limiter *)

Section RateLimiter.

Context {C : Capabilities}.

Lemma get_lastSubmissionTime_set_eq (a v : Z) (s : State) :
  get_lastSubmissionTime (set_lastSubmissionTime a v s) a = v.
Proof.
  unfold get_lastSubmissionTime, set_lastSubmissionTime. simpl.
  now rewrite lookup_insert_eq.
Qed.

Lemma get_lastDecryptionRequestTime_set_eq (a v : Z) (s : State) :
  get_lastDecryptionRequestTime (set_lastDecryptionRequestTime a v s) a = v.
Proof.
  unfold get_lastDecryptionRequestTime, set_lastDecryptionRequestTime. simpl.
  now rewrite lookup_insert_eq.
Qed.

(** C8 (as amended). For a caller that holds the provider role, with the
    system not paused: a submission (a search) is rejected with
    [CooldownActive], a RateLimit error, if now < last + cooldownSeconds
    and that sum fits in 256 bits; if the sum exceeds the range the call
    is rejected by the overflow check of the addition instead.  A call
    that succeeds sets last[actor] to now together with its action (the
    appended document, the registered request), and a call that fails,
    for whatever reason, leaves the world, hence last[actor], as it
    was. *)
Theorem cooldown_gate (env : Env) (w : World) :
  let s := storage w in
  let sender := msg_sender env in
  let now := block_timestamp env in
  (get_isProvider s sender = true -> paused s = false ->
     (get_lastSubmissionTime s sender + cooldownSeconds s <= MAX_UINT256 ->
      now < get_lastSubmissionTime s sender + cooldownSeconds s ->
      forall a b, submitDocument env a b w = Revert CooldownActive) /\
     (MAX_UINT256 < get_lastSubmissionTime s sender + cooldownSeconds s ->
      forall a b, submitDocument env a b w = Revert (Panic 17)) /\
     (get_lastDecryptionRequestTime s sender + cooldownSeconds s <= MAX_UINT256 ->
      now < get_lastDecryptionRequestTime s sender + cooldownSeconds s ->
      forall i k, searchKeywordInBatch env i k w = Revert CooldownActive) /\
     (MAX_UINT256 < get_lastDecryptionRequestTime s sender + cooldownSeconds s ->
      forall i k, searchKeywordInBatch env i k w = Revert (Panic 17))) /\
  kind_of CooldownActive = Some RateLimitError /\
  (forall a b w', submitDocument env a b w = Ok w' ->
     get_lastSubmissionTime s sender + cooldownSeconds s <= now /\
     get_lastSubmissionTime (storage w') sender = now /\
     get_batchDocuments (storage w') (currentBatchId s)
       = get_batchDocuments s (currentBatchId s) ++ [mkDocument a b]) /\
  (forall i k w', searchKeywordInBatch env i k w = Ok w' ->
     get_lastDecryptionRequestTime s sender + cooldownSeconds s <= now /\
     get_lastDecryptionRequestTime (storage w') sender = now /\
     exists requestId cts,
       oracleRequests w' = oracleRequests w ++ [(requestId, cts)] /\
       get_decryptionContext (storage w') requestId
         = mkDecryptionContext i (_hashCiphertexts env cts) false) /\
  (forall a b e, submitDocument env a b w = Revert e ->
     let w' := (transact (submitDocument env a b) w).1 in
     w' = w /\ lastSubmissionTime (storage w') = lastSubmissionTime s) /\
  (forall i k e, searchKeywordInBatch env i k w = Revert e ->
     let w' := (transact (searchKeywordInBatch env i k) w).1 in
     w' = w /\ lastDecryptionRequestTime (storage w') = lastDecryptionRequestTime s).
Proof.
  cbv zeta. repeat apply conj.
  - intros Hp Hpa. repeat apply conj.
    + intros Hr Hlt a b. unfold submitDocument, checkSubmissionCooldown.
      unfold onlyProvider, whenNotPaused. rewrite Hp, Hpa. simpl.
      now rewrite cooldown_active.
    + intros Hov a b. unfold submitDocument, checkSubmissionCooldown.
      unfold onlyProvider, whenNotPaused. rewrite Hp, Hpa. simpl.
      now rewrite cooldown_overflow.
    + intros Hr Hlt i k. unfold searchKeywordInBatch, checkDecryptionCooldown.
      unfold onlyProvider, whenNotPaused. rewrite Hp, Hpa. simpl.
      now rewrite cooldown_active.
    + intros Hov i k. unfold searchKeywordInBatch, checkDecryptionCooldown.
      unfold onlyProvider, whenNotPaused. rewrite Hp, Hpa. simpl.
      now rewrite cooldown_overflow.
  - reflexivity.
  - intros a b w' H. apply submitDocument_Ok_inv in H. cbv zeta in H.
    destruct H as (_ & _ & Hcd & _ & _ & _ & ->). simpl.
    split; [assumption|]. split; [apply get_lastSubmissionTime_set_eq|].
    unfold get_batchDocuments at 1. simpl. now rewrite lookup_insert_eq.
  - intros i k w' H. apply searchKeywordInBatch_Ok_inv in H. cbv zeta in H.
    destruct H as (_ & _ & Hcd & _ & _ & _ & ->). simpl.
    split; [assumption|]. split; [apply get_lastDecryptionRequestTime_set_eq|].
    eexists _, _. split; [reflexivity|].
    unfold get_decryptionContext. simpl. now rewrite lookup_insert_eq.
  - intros a b e H. rewrite (transact_Revert _ _ _ H). now split.
  - intros i k e H. rewrite (transact_Revert _ _ _ H). now split.
Qed.

End RateLimiter.

(** ** Access control *)

Section AccessControl.

Context {C : Capabilities}.

(** C9 (as amended). A successful [transferOwnership], [pause], [unpause]
    or [setCooldownSeconds] logs exactly one notification: the previous
    and the new owner, the pausing or unpausing account, the old and the
    new cooldown.  [addProvider] and [removeProvider] log their
    notification, which carries the actor only, exactly when the role of
    the actor changes; when the actor already has (already lacks) the
    role the call succeeds, logs nothing and leaves the world as it
    was. *)
Theorem access_control_notifications (env : Env) (w w' : World) :
  (forall newOwner, transferOwnership env newOwner w = Ok w' ->
     events w' = events w ++ [OwnershipTransferred (owner (storage w)) newOwner] /\
     owner (storage w') = newOwner) /\
  (pause env w = Ok w' ->
     events w' = events w ++ [Paused (msg_sender env)] /\
     paused (storage w) = false /\ paused (storage w') = true) /\
  (unpause env w = Ok w' ->
     events w' = events w ++ [Unpaused (msg_sender env)] /\
     paused (storage w) = true /\ paused (storage w') = false) /\
  (forall n, setCooldownSeconds env n w = Ok w' ->
     events w' = events w ++ [CooldownSecondsChanged (cooldownSeconds (storage w)) n] /\
     cooldownSeconds (storage w') = n) /\
  (forall p, addProvider env p w = Ok w' ->
     get_isProvider (storage w') p = true /\
     if get_isProvider (storage w) p
     then w' = w
     else events w' = events w ++ [ProviderAdded p]) /\
  (forall p, removeProvider env p w = Ok w' ->
     get_isProvider (storage w') p = false /\
     if get_isProvider (storage w) p
     then events w' = events w ++ [ProviderRemoved p]
     else w' = w).
Proof.
  repeat apply conj.
  - intros newOwner H. unfold transferOwnership in H.
    step_Ok H. step_Ok H. injection H as <-. now split.
  - intros H. unfold pause in H. step_Ok H. step_Ok H.
    apply check_Ok_inv, negb_true_iff in Hc0. injection H as <-. now repeat split.
  - intros H. unfold unpause in H. step_Ok H. step_Ok H.
    apply check_Ok_inv in Hc0. injection H as <-. now repeat split.
  - intros n H. unfold setCooldownSeconds in H.
    step_Ok H. step_Ok H. injection H as <-. now split.
  - intros p H. unfold addProvider in H. step_Ok H.
    destruct (get_isProvider (storage w) p) eqn:E; simpl in H; injection H as <-.
    + now split.
    + split; [|reflexivity]. unfold get_isProvider. simpl.
      now rewrite lookup_insert_eq.
  - intros p H. unfold removeProvider in H. step_Ok H.
    destruct (get_isProvider (storage w) p) eqn:E; simpl in H; injection H as <-.
    + split; [|reflexivity]. unfold get_isProvider. simpl.
      now rewrite lookup_insert_eq.
    + now split.
Qed.

End AccessControl.

(** ** The encrypted count *)

Section Count.

Context {C : Capabilities} {P : Plaintexts C}.

Lemma matchCount_nil (kw : Z) : matchCount [] kw = 0.
Proof. reflexivity. Qed.

Lemma matchCount_cons (d : Document) (docs : list Document) (kw : Z) :
  matchCount (d :: docs) kw
  = (if bool_decide (decrypt (encryptedContent d) = decrypt kw) then 1 else 0)
    + matchCount docs kw.
Proof.
  unfold matchCount. rewrite filter_cons.
  case_bool_decide as E; destruct (decide _) as [E'|E']; try contradiction.
  - rewrite length_cons. lia.
  - lia.
Qed.

Lemma matchCount_bounds (docs : list Document) (kw : Z) :
  0 <= matchCount docs kw <= Z.of_nat (length docs).
Proof.
  unfold matchCount. split; [lia|].
  apply inj_le, length_filter.
Qed.

Lemma matchCount_full_iff (docs : list Document) (kw : Z) :
  matchCount docs kw = Z.of_nat (length docs) <->
  Forall (fun d => decrypt (encryptedContent d) = decrypt kw) docs.
Proof.
  induction docs as [|d docs IH].
  - split; [constructor | reflexivity].
  - rewrite matchCount_cons, length_cons.
    pose proof (matchCount_bounds docs kw) as Hb.
    case_bool_decide as E; split.
    + intros H. constructor; [assumption | apply IH; lia].
    + intros H. inversion H; subst. rewrite (proj2 IH); [lia | assumption].
    + lia.
    + intros H. inversion H; subst. contradiction.
Qed.

(** One iteration of the source's loop adds 1, modulo 2^32, whatever the
    document and the keyword: the handle of the comparison is not zero. *)
Lemma countStep_decrypt (kw acc : Z) (d : Document) :
  comparison_handles_nonzero ->
  decrypt (countStep kw acc d) = (decrypt acc + 1) mod 2 ^ 32.
Proof.
  intros Hnz. unfold countStep, ebool_as_condition.
  replace (fhe_eq (encryptedContent d) kw =? 0) with false
    by (symmetry; apply Z.eqb_neq, Hnz).
  simpl. now rewrite decrypt_add, decrypt_asEuint32.
Qed.

(** The source's loop, from any accumulator. *)
Lemma fold_countStep_decrypt (kw : Z) (docs : list Document) (acc : Z) :
  comparison_handles_nonzero ->
  decrypt (fold_left (countStep kw) docs acc)
  = (decrypt acc + Z.of_nat (length docs)) mod 2 ^ 32.
Proof.
  intros Hnz. revert acc. induction docs as [|d docs IH]; intros acc.
  - simpl. rewrite Z.add_0_r.
    pose proof (decrypt_range acc) as Hr. unfold MAX_UINT32 in Hr.
    symmetry. apply Z.mod_small. lia.
  - simpl fold_left. rewrite IH, countStep_decrypt by assumption.
    rewrite Zplus_mod_idemp_l, length_cons. f_equal. lia.
Qed.

Lemma encryptedCountOf_decrypt (docs : list Document) (kw : Z) :
  comparison_handles_nonzero ->
  decrypt (encryptedCountOf docs kw) = Z.of_nat (length docs) mod 2 ^ 32.
Proof.
  intros Hnz. unfold encryptedCountOf.
  rewrite fold_countStep_decrypt, decrypt_asEuint32 by assumption.
  now rewrite Zplus_mod_idemp_l.
Qed.

(** One iteration of the specification's loop adds the 0/1 outcome of the
    comparison, modulo 2^32. *)
Lemma spec_countStep_decrypt (kw acc : Z) (d : Document) :
  decrypt (spec_countStep kw acc d)
  = (decrypt acc
     + (if bool_decide (decrypt (encryptedContent d) = decrypt kw) then 1 else 0))
    mod 2 ^ 32.
Proof.
  unfold spec_countStep. rewrite decrypt_add, decrypt_select, decrypt_eq.
  case_bool_decide; now rewrite decrypt_asEuint32.
Qed.

Lemma fold_spec_countStep_decrypt (kw : Z) (docs : list Document) (acc : Z) :
  decrypt (fold_left (spec_countStep kw) docs acc)
  = (decrypt acc + matchCount docs kw) mod 2 ^ 32.
Proof.
  revert acc. induction docs as [|d docs IH]; intros acc.
  - simpl. rewrite matchCount_nil, Z.add_0_r.
    pose proof (decrypt_range acc) as Hr. unfold MAX_UINT32 in Hr.
    symmetry. apply Z.mod_small. lia.
  - simpl. rewrite IH, spec_countStep_decrypt, matchCount_cons.
    rewrite Zplus_mod_idemp_l. f_equal. lia.
Qed.

Lemma spec_encryptedCountOf_decrypt (docs : list Document) (kw : Z) :
  decrypt (spec_encryptedCountOf docs kw) = matchCount docs kw mod 2 ^ 32.
Proof.
  unfold spec_encryptedCountOf. rewrite fold_spec_countStep_decrypt, decrypt_asEuint32.
  now rewrite Zplus_mod_idemp_l.
Qed.


End Count.

(** ** The state hash of a request *)

Section StateHash.

Context {C : Capabilities} {L : HandleLaws C}.

(** On a batch with a document the accumulator is the result of an
    addition, an initialised handle. *)
Lemma encryptedCountOf_initialized (docs : list Document) (kw : Z) :
  docs <> [] -> isInitialized (encryptedCountOf docs kw) = true.
Proof.
  intros Hne. destruct docs as [|d docs] using rev_ind; [contradiction|].
  unfold encryptedCountOf. rewrite fold_left_app. simpl.
  apply fhe_add_initialized.
Qed.

Lemma abi_encode_single_inj (h h' a : Z) :
  abi_encode [h] a = abi_encode [h'] a -> h = h'.
Proof. unfold abi_encode. now intros [= ->]. Qed.

(** C1 (what the contract does). A successful search stores, under the
    request id given by the oracle, the digest of the accumulator handle
    and the contract address.  The callback compares it with the digest
    of a fresh one-element array of zeros and the contract address; with
    a digest without collisions the two differ, since the accumulator is
    an initialised handle.  So a callback for the request, on any later
    world in which the stored context is the same, is rejected with
    [StateMismatch], whatever the payload and the proof. *)
Theorem myCallback_rejects_registered_request (env : Env) (batchId kw : Z) (w w' : World) :
  collision_free ->
  searchKeywordInBatch env batchId kw w = Ok w' ->
  let cts := [encryptedCountOf (get_batchDocuments (storage w) batchId) kw] in
  let requestId := (requestDecryption (oracle w) cts).1 in
  get_decryptionContext (storage w') requestId
    = mkDecryptionContext batchId (keccak256 (abi_encode cts (this_address env))) false /\
  keccak256 (abi_encode cts (this_address env))
    <> keccak256 (abi_encode (new_bytes32_array 1) (this_address env)) /\
  (forall env' cleartexts proof w'',
     this_address env' = this_address env ->
     get_decryptionContext (storage w'') requestId
       = get_decryptionContext (storage w') requestId ->
     myCallback env' requestId cleartexts proof w'' = Revert StateMismatch /\
     transact (myCallback env' requestId cleartexts proof) w'' = (w'', Some StateMismatch)).
Proof.
  intros Hcf H. apply searchKeywordInBatch_Ok_inv in H. cbv zeta in *.
  destruct H as (_ & _ & _ & _ & _ & Hne & ->).
  set (docs := get_batchDocuments (storage w) batchId) in *.
  set (acc := encryptedCountOf docs kw).
  set (requestId := (requestDecryption (oracle w) [acc]).1).
  assert (Hctx : get_decryptionContext
            (storage (emit (KeywordSearchRequested requestId batchId kw)
              (upd_storage
                 (set_lastDecryptionRequestTime (msg_sender env) (block_timestamp env))
                 (upd_storage
                    (set_decryptionContext requestId
                       (mkDecryptionContext batchId (_hashCiphertexts env [acc]) false))
                    (mkWorld (storage w) (events w) (requestDecryption (oracle w) [acc]).2
                       (oracleRequests w ++ [(requestId, [acc])])))))) requestId
          = mkDecryptionContext batchId (keccak256 (abi_encode [acc] (this_address env))) false).
  { unfold get_decryptionContext. simpl. now rewrite lookup_insert_eq. }
  assert (Hdiff : keccak256 (abi_encode [acc] (this_address env))
            <> keccak256 (abi_encode (new_bytes32_array 1) (this_address env))).
  { intros Heq. apply Hcf, abi_encode_single_inj in Heq.
    pose proof (encryptedCountOf_initialized docs kw Hne) as Hi.
    apply isInitialized_nonzero in Hi. now apply Hi. }
  split; [exact Hctx|]. split; [exact Hdiff|].
  intros env' cleartexts proof w'' Hthis Hsame.
  assert (Hrev : myCallback env' requestId cleartexts proof w'' = Revert StateMismatch).
  { unfold myCallback. rewrite Hsame, Hctx, Hthis. simpl.
    now rewrite bool_decide_eq_false_2. }
  split; [exact Hrev | now apply transact_Revert].
Qed.

End StateHash.

(** ** What each successful call does *)

Section Effects.

Context {C : Capabilities}.

Lemma transferOwnership_Ok_inv (env : Env) (newOwner : Z) (w w' : World) :
  transferOwnership env newOwner w = Ok w' ->
  msg_sender env = owner (storage w) /\ newOwner <> 0 /\
  w' = upd_storage (set_owner newOwner)
         (emit (OwnershipTransferred (owner (storage w)) newOwner) w).
Proof.
  intros H. unfold transferOwnership in H.
  step_Ok H. apply onlyOwner_Ok_inv in Hc.
  step_Ok H. apply check_Ok_inv, negb_true_iff, bool_decide_eq_false in Hc0.
  injection H as <-. auto.
Qed.

Lemma addProvider_Ok_inv (env : Env) (provider : Z) (w w' : World) :
  addProvider env provider w = Ok w' ->
  msg_sender env = owner (storage w) /\
  w' = (if get_isProvider (storage w) provider then w
        else emit (ProviderAdded provider)
               (upd_storage (set_isProvider provider true) w)).
Proof.
  intros H. unfold addProvider in H.
  step_Ok H. apply onlyOwner_Ok_inv in Hc.
  destruct (get_isProvider (storage w) provider); simpl in H;
    injection H as <-; auto.
Qed.

Lemma removeProvider_Ok_inv (env : Env) (provider : Z) (w w' : World) :
  removeProvider env provider w = Ok w' ->
  msg_sender env = owner (storage w) /\
  w' = (if get_isProvider (storage w) provider
        then emit (ProviderRemoved provider)
               (upd_storage (set_isProvider provider false) w)
        else w).
Proof.
  intros H. unfold removeProvider in H.
  step_Ok H. apply onlyOwner_Ok_inv in Hc.
  destruct (get_isProvider (storage w) provider); simpl in H;
    injection H as <-; auto.
Qed.

Lemma pause_Ok_inv (env : Env) (w w' : World) :
  pause env w = Ok w' ->
  msg_sender env = owner (storage w) /\ paused (storage w) = false /\
  w' = emit (Paused (msg_sender env)) (upd_storage (set_paused true) w).
Proof.
  intros H. unfold pause in H.
  step_Ok H. apply onlyOwner_Ok_inv in Hc.
  step_Ok H. apply check_Ok_inv, negb_true_iff in Hc0.
  injection H as <-. auto.
Qed.

Lemma unpause_Ok_inv (env : Env) (w w' : World) :
  unpause env w = Ok w' ->
  msg_sender env = owner (storage w) /\ paused (storage w) = true /\
  w' = emit (Unpaused (msg_sender env)) (upd_storage (set_paused false) w).
Proof.
  intros H. unfold unpause in H.
  step_Ok H. apply onlyOwner_Ok_inv in Hc.
  step_Ok H. apply check_Ok_inv in Hc0.
  injection H as <-. auto.
Qed.

Lemma setCooldownSeconds_Ok_inv (env : Env) (n : Z) (w w' : World) :
  setCooldownSeconds env n w = Ok w' ->
  msg_sender env = owner (storage w) /\ 0 < n /\
  w' = upd_storage (set_cooldownSeconds n)
         (emit (CooldownSecondsChanged (cooldownSeconds (storage w)) n) w).
Proof.
  intros H. unfold setCooldownSeconds in H.
  step_Ok H. apply onlyOwner_Ok_inv in Hc.
  step_Ok H. apply check_Ok_inv, Z.ltb_lt in Hc0.
  injection H as <-. auto.
Qed.

Lemma openNewBatch_Ok_inv (env : Env) (w w' : World) :
  openNewBatch env w = Ok w' ->
  let next := currentBatchId (storage w) + 1 in
  msg_sender env = owner (storage w) /\ paused (storage w) = false /\
  next <= MAX_UINT256 /\
  w' = _openBatch next (upd_storage (set_currentBatchId next) w).
Proof.
  intros H. unfold openNewBatch in H.
  step_Ok H. apply onlyOwner_Ok_inv in Hc.
  step_Ok H. apply check_Ok_inv, negb_true_iff in Hc0.
  apply bind_Ok_inv in H. destruct H as (next & Hn & H).
  apply checked_add_Ok_inv in Hn. destruct Hn as [-> Hr].
  injection H as <-. cbv zeta. auto.
Qed.

Lemma closeCurrentBatch_Ok_inv (env : Env) (w w' : World) :
  closeCurrentBatch env w = Ok w' ->
  let cur := currentBatchId (storage w) in
  msg_sender env = owner (storage w) /\ paused (storage w) = false /\
  w' = (if batch_open (get_batch (storage w) cur)
        then emit (BatchClosed cur)
               (upd_storage
                  (set_batch cur (mkBatch (batch_id (get_batch (storage w) cur)) false)) w)
        else w).
Proof.
  intros H. unfold closeCurrentBatch in H.
  step_Ok H. apply onlyOwner_Ok_inv in Hc.
  step_Ok H. apply check_Ok_inv, negb_true_iff in Hc0.
  cbv zeta in *.
  destruct (batch_open (get_batch (storage w) (currentBatchId (storage w))));
    injection H as <-; auto.
Qed.

(** The world after any call, case by case: a failed call leaves it as it
    was, a successful one changes it as its function says. *)
Lemma execute_cases (env : Env) (c : Call) (w : World) :
  execute env c w = w \/
  match c with
  | CallTransferOwnership newOwner =>
      execute env c w = upd_storage (set_owner newOwner)
        (emit (OwnershipTransferred (owner (storage w)) newOwner) w)
  | CallAddProvider provider =>
      execute env c w = emit (ProviderAdded provider)
        (upd_storage (set_isProvider provider true) w)
  | CallRemoveProvider provider =>
      execute env c w = emit (ProviderRemoved provider)
        (upd_storage (set_isProvider provider false) w)
  | CallPause =>
      execute env c w = emit (Paused (msg_sender env)) (upd_storage (set_paused true) w)
  | CallUnpause =>
      execute env c w = emit (Unpaused (msg_sender env)) (upd_storage (set_paused false) w)
  | CallSetCooldownSeconds n =>
      0 < n /\
      execute env c w = upd_storage (set_cooldownSeconds n)
        (emit (CooldownSecondsChanged (cooldownSeconds (storage w)) n) w)
  | CallOpenNewBatch =>
      let next := currentBatchId (storage w) + 1 in
      execute env c w = _openBatch next (upd_storage (set_currentBatchId next) w)
  | CallCloseCurrentBatch =>
      let cur := currentBatchId (storage w) in
      batch_open (get_batch (storage w) cur) = true /\
      execute env c w = emit (BatchClosed cur)
        (upd_storage (set_batch cur (mkBatch (batch_id (get_batch (storage w) cur)) false)) w)
  | CallSubmitDocument encId encContent =>
      let cur := currentBatchId (storage w) in
      isInitialized encId = true /\ isInitialized encContent = true /\
      batch_open (get_batch (storage w) cur) = true /\
      execute env c w = emit (DocumentSubmitted (msg_sender env) cur encId)
        (upd_storage (set_lastSubmissionTime (msg_sender env) (block_timestamp env))
           (upd_storage (set_batchDocuments cur
              (get_batchDocuments (storage w) cur ++ [mkDocument encId encContent])) w))
  | CallSearchKeywordInBatch batchId kw =>
      let docs := get_batchDocuments (storage w) batchId in
      let cts := [encryptedCountOf docs kw] in
      let requestId := (requestDecryption (oracle w) cts).1 in
      docs <> [] /\
      execute env c w = emit (KeywordSearchRequested requestId batchId kw)
        (upd_storage (set_lastDecryptionRequestTime (msg_sender env) (block_timestamp env))
           (upd_storage (set_decryptionContext requestId
                (mkDecryptionContext batchId (_hashCiphertexts env cts) false))
              (mkWorld (storage w) (events w) (requestDecryption (oracle w) cts).2
                 (oracleRequests w ++ [(requestId, cts)]))))
  | CallMyCallback requestId cleartexts proof =>
      let c0 := get_decryptionContext (storage w) requestId in
      processed c0 = false /\
      stateHash c0 = keccak256 (abi_encode (new_bytes32_array 1) (this_address env)) /\
      exists count,
        execute env c w = emit (KeywordSearchCompleted requestId (ctx_batchId c0) count)
          (upd_storage (set_decryptionContext requestId
             (mkDecryptionContext (ctx_batchId c0) (stateHash c0) true)) w)
  end.
Proof.
  unfold execute, transact.
  destruct (dispatch env c w) as [w'|e] eqn:E; [|now left].
  simpl. destruct c; simpl in E.
  - apply transferOwnership_Ok_inv in E. destruct E as (_ & _ & ->). now right.
  - apply addProvider_Ok_inv in E. destruct E as (_ & ->).
    destruct (get_isProvider (storage w) provider); [now left | now right].
  - apply removeProvider_Ok_inv in E. destruct E as (_ & ->).
    destruct (get_isProvider (storage w) provider); [now right | now left].
  - apply pause_Ok_inv in E. destruct E as (_ & _ & ->). now right.
  - apply unpause_Ok_inv in E. destruct E as (_ & _ & ->). now right.
  - apply setCooldownSeconds_Ok_inv in E. destruct E as (_ & Hn & ->). now right.
  - apply openNewBatch_Ok_inv in E. cbv zeta in E. destruct E as (_ & _ & _ & ->).
    now right.
  - apply closeCurrentBatch_Ok_inv in E. cbv zeta in E. destruct E as (_ & _ & ->).
    destruct (batch_open _) eqn:Ho; [right; now split | now left].
  - apply submitDocument_Ok_inv in E. cbv zeta in E.
    destruct E as (_ & _ & _ & Hi & Hc & Ho & ->). right. cbv zeta. auto.
  - apply searchKeywordInBatch_Ok_inv in E. cbv zeta in E.
    destruct E as (_ & _ & _ & _ & _ & Hne & ->). right. cbv zeta. auto.
  - unfold myCallback in E.
    step_Ok E. apply check_Ok_inv, negb_true_iff in Hc.
    step_Ok E. apply check_Ok_inv, bool_decide_eq_true in Hc0.
    step_Ok E. apply bind_Ok_inv in E. destruct E as (count & _ & E).
    injection E as <-. right. cbv zeta. split; [assumption|]. split; [assumption|].
    exists count. simpl. now rewrite get_decryptionContext_set_eq.
Qed.

End Effects.

(** ** Invariants of the ledger *)

Section LedgerInvariants.

Context {C : Capabilities}.

(** [ledger_ok] looks at four storage variables only. *)
Lemma ledger_ok_ext (w w' : World) :
  cooldownSeconds (storage w') = cooldownSeconds (storage w) ->
  currentBatchId (storage w') = currentBatchId (storage w) ->
  batches (storage w') = batches (storage w) ->
  batchDocuments (storage w') = batchDocuments (storage w) ->
  ledger_ok w -> ledger_ok w'.
Proof.
  intros Hc Hi Hb Hd [H1 H2 H3 H4 H5].
  split; rewrite ?Hc, ?Hi, ?Hb, ?Hd; assumption.
Qed.

Lemma constructor_ledger_ok (env : Env) (o : OracleState) :
  ledger_ok (constructor env o).
Proof.
  split; simpl.
  - lia.
  - lia.
  - intros i b H. apply lookup_insert_Some in H.
    destruct H as [[<- <-]|[_ H]]; [simpl; lia | now rewrite lookup_empty in H].
  - intros i Hi. assert (i = 1) as -> by lia. rewrite lookup_insert_eq. eauto.
  - intros i ds H. now rewrite lookup_empty in H.
Qed.

Lemma execute_ledger_ok (env : Env) (c : Call) (w : World) :
  ledger_ok w -> ledger_ok (execute env c w).
Proof.
  intros Hw. destruct (execute_cases env c w) as [->|H]; [assumption|].
  destruct c; cbv zeta in H.
  - rewrite H. now apply (ledger_ok_ext w).
  - rewrite H. now apply (ledger_ok_ext w).
  - rewrite H. now apply (ledger_ok_ext w).
  - rewrite H. now apply (ledger_ok_ext w).
  - rewrite H. now apply (ledger_ok_ext w).
  - destruct H as [Hn ->]. destruct Hw as [H1 H2 H3 H4 H5]. now split.
  - rewrite H. destruct Hw as [H1 H2 H3 H4 H5]. split; simpl.
    + assumption.
    + lia.
    + intros i b Hb. apply lookup_insert_Some in Hb.
      destruct Hb as [[<- <-]|[Hne Hb]]; [simpl; lia|].
      apply H3 in Hb. lia.
    + intros i Hi.
      destruct (decide (currentBatchId (storage w) + 1 = i)) as [<-|Hne].
      * rewrite lookup_insert_eq. eauto.
      * rewrite lookup_insert_ne by assumption. apply H4. lia.
    + intros i ds Hd. apply H5 in Hd. destruct Hd as [Hr Hf]. split; [lia | assumption].
  - destruct H as [Ho ->]. destruct Hw as [H1 H2 H3 H4 H5]. split; simpl; try assumption.
    + intros i b Hb. apply lookup_insert_Some in Hb.
      destruct Hb as [[<- <-]|[Hne Hb]]; [|now apply H3]. simpl.
      destruct (H4 (currentBatchId (storage w)) ltac:(lia)) as [b0 Hb0].
      unfold get_batch. rewrite Hb0. simpl. apply H3 in Hb0. lia.
    + intros i Hi.
      destruct (decide (currentBatchId (storage w) = i)) as [<-|Hne].
      * rewrite lookup_insert_eq. eauto.
      * rewrite lookup_insert_ne by assumption. now apply H4.
  - destruct H as (Hi & Hc & Ho & ->). destruct Hw as [H1 H2 H3 H4 H5].
    split; simpl; try assumption.
    intros i ds Hd. apply lookup_insert_Some in Hd.
    destruct Hd as [[<- <-]|[Hne Hd]]; [|now apply H5].
    split; [lia|]. apply Forall_app. split.
    + unfold get_batchDocuments.
      destruct (batchDocuments (storage w) !! currentBatchId (storage w)) as [ds|] eqn:E;
        simpl; [now apply H5 in E | constructor].
    + repeat constructor; assumption.
  - destruct H as (_ & ->). now apply (ledger_ok_ext w).
  - destruct H as (_ & _ & count & ->). now apply (ledger_ok_ext w).
Qed.

Lemma reachable_ledger_ok (self : Z) (w : World) :
  reachable self w -> ledger_ok w.
Proof.
  induction 1 as [env o _|env c w _ IH _].
  - apply constructor_ledger_ok.
  - now apply execute_ledger_ok.
Qed.

(** Reachability goes through sequences of transactions. *)
Lemma reachable_execute_all (self : Z) (cs : list (Env * Call)) (w : World) :
  Forall (fun ec => this_address ec.1 = self) cs ->
  reachable self w -> reachable self (execute_all cs w).
Proof.
  revert w. induction cs as [|[env c] cs IH]; intros w Hcs Hw; [exact Hw|].
  inversion Hcs as [|? ? Hself Hrest]; subst. simpl.
  apply IH; [assumption|]. now apply reachable_execute.
Qed.

(** X5. The cooldown is positive in every reachable world. *)
Theorem reachable_cooldown_positive (self : Z) (w : World) :
  reachable self w -> 0 < cooldownSeconds (storage w).
Proof. intros H. apply reachable_ledger_ok in H. apply H. Qed.

(** X6. The batch table of a reachable world has exactly the ids from 1
    to [currentBatchId], each entry carrying its own id. *)
Theorem reachable_batches_contiguous (self : Z) (w : World) :
  reachable self w ->
  1 <= currentBatchId (storage w) /\
  (forall i, is_Some (batches (storage w) !! i) <-> 1 <= i <= currentBatchId (storage w)) /\
  (forall i, 1 <= i <= currentBatchId (storage w) -> batch_id (get_batch (storage w) i) = i).
Proof.
  intros H. apply reachable_ledger_ok in H. destruct H as [H1 H2 H3 H4 H5].
  split; [assumption|]. split.
  - intros i. split; [intros [b Hb]; now apply H3 in Hb | apply H4].
  - intros i Hi. destruct (H4 i Hi) as [b Hb]. unfold get_batch. rewrite Hb. simpl.
    now apply H3 in Hb.
Qed.

(** X7. In a reachable world every stored document has initialised
    handles, and no document is stored under an id that is not a batch. *)
Theorem reachable_documents_initialized (self : Z) (w : World) :
  reachable self w ->
  forall i,
    (forall d, d ∈ get_batchDocuments (storage w) i ->
       isInitialized (encryptedId d) = true /\ isInitialized (encryptedContent d) = true) /\
    (~ 1 <= i <= currentBatchId (storage w) -> get_batchDocuments (storage w) i = []).
Proof.
  intros H i. apply reachable_ledger_ok in H. destruct H as [H1 H2 H3 H4 H5].
  unfold get_batchDocuments.
  destruct (batchDocuments (storage w) !! i) as [ds|] eqn:E; simpl.
  - apply H5 in E. destruct E as [Hr Hf]. split; [|intros Hn; contradiction].
    intros d Hd. rewrite Forall_forall in Hf. now apply Hf.
  - split; [intros d Hd; now apply not_elem_of_nil in Hd | reflexivity].
Qed.

(** X8. In a reachable world a batch just opened has no document, so a
    search on it by a provider that passes the gates is the empty-batch
    revert. *)
Theorem fresh_batch_is_empty (self : Z) (env : Env) (w w' : World) :
  reachable self w ->
  openNewBatch env w = Ok w' ->
  let new := currentBatchId (storage w') in
  new = currentBatchId (storage w) + 1 /\
  batch_open (get_batch (storage w') new) = true /\
  get_batchDocuments (storage w') new = [] /\
  (forall env' kw,
     get_isProvider (storage w') (msg_sender env') = true ->
     checkDecryptionCooldown env' w' = Ok tt ->
     isInitialized kw = true ->
     searchKeywordInBatch env' new kw w' = Revert (ErrorString "No documents in batch")).
Proof.
  intros Hr H. apply reachable_ledger_ok in Hr. destruct Hr as [H1 H2 H3 H4 H5].
  apply openNewBatch_Ok_inv in H. cbv zeta in H. destruct H as (_ & Hpa & _ & Hw').
  assert (Hcur : currentBatchId (storage w') = currentBatchId (storage w) + 1)
    by (rewrite Hw'; reflexivity).
  assert (Hpa' : paused (storage w') = false) by (rewrite Hw'; exact Hpa).
  assert (Hopen : batch_open (get_batch (storage w') (currentBatchId (storage w) + 1)) = true).
  { rewrite Hw'. simpl. now rewrite get_batch_set_batch_eq. }
  assert (Hdocs : get_batchDocuments (storage w') (currentBatchId (storage w) + 1) = []).
  { rewrite Hw'. unfold get_batchDocuments. simpl.
    destruct (batchDocuments (storage w) !! (currentBatchId (storage w) + 1)) as [ds|] eqn:E;
      [|reflexivity].
    apply H5 in E. lia. }
  cbv zeta. rewrite Hcur.
  split; [reflexivity|]. split; [exact Hopen|]. split; [exact Hdocs|].
  intros env' kw Hp Hcd Hinit. unfold searchKeywordInBatch.
  unfold onlyProvider, whenNotPaused, _initIfNeeded.
  rewrite Hp, Hpa', Hcd, Hinit, Hopen, Hdocs, Hcur. simpl.
  replace (currentBatchId (storage w) + 1 =? 0) with false
    by (symmetry; apply Z.eqb_neq; lia).
  now rewrite Z.ltb_irrefl.
Qed.

(** *** What a transaction cannot touch *)

Lemma execute_currentBatchId (env : Env) (c : Call) (w : World) :
  currentBatchId (storage (execute env c w)) = currentBatchId (storage w) \/
  (c = CallOpenNewBatch /\
   currentBatchId (storage (execute env c w)) = currentBatchId (storage w) + 1).
Proof.
  destruct (execute_cases env c w) as [->|H]; [now left|].
  destruct c; cbv zeta in H;
    try (rewrite H; now left).
  - destruct H as [_ ->]. now left.
  - rewrite H. right. now split.
  - destruct H as [_ ->]. now left.
  - destruct H as (_ & _ & _ & ->). now left.
  - destruct H as (_ & ->). now left.
  - destruct H as (_ & _ & count & ->). now left.
Qed.

(** One call on a batch that is not current, or that is closed. *)
Lemma execute_frozen_batch (env : Env) (c : Call) (w : World) (i : Z) :
  i < currentBatchId (storage w) \/
  (i = currentBatchId (storage w) /\ batch_open (get_batch (storage w) i) = false) ->
  batches (storage (execute env c w)) !! i = batches (storage w) !! i /\
  batchDocuments (storage (execute env c w)) !! i = batchDocuments (storage w) !! i.
Proof.
  intros Hi. destruct (execute_cases env c w) as [->|H]; [now split|].
  destruct c; cbv zeta in H; try (rewrite H; now split).
  - destruct H as [_ ->]. now split.
  - rewrite H. simpl. split; [|reflexivity].
    apply lookup_insert_ne. lia.
  - destruct H as [Ho ->]. simpl. split; [|reflexivity].
    destruct Hi as [Hi|[-> Hc]]; [apply lookup_insert_ne; lia | congruence].
  - destruct H as (_ & _ & Ho & ->). simpl. split; [reflexivity|].
    destruct Hi as [Hi|[-> Hc]]; [apply lookup_insert_ne; lia | congruence].
  - destruct H as (_ & ->). now split.
  - destruct H as (_ & _ & count & ->). now split.
Qed.

Lemma execute_all_app (cs cs' : list (Env * Call)) (w : World) :
  execute_all (cs ++ cs') w = execute_all cs' (execute_all cs w).
Proof. unfold execute_all. apply fold_left_app. Qed.

(** X9. Batch ids only grow: a transaction leaves [currentBatchId] as it
    is, or adds one to it (a successful [openNewBatch]); over a sequence
    of transactions it never decreases. *)
Theorem currentBatchId_never_decreases (cs : list (Env * Call)) (w : World) :
  currentBatchId (storage w) <= currentBatchId (storage (execute_all cs w))
    <= currentBatchId (storage w) + Z.of_nat (length cs).
Proof.
  revert w. induction cs as [|[env c] cs IH]; intros w; [simpl; lia|].
  simpl. specialize (IH (execute env c w)).
  destruct (execute_currentBatchId env c w) as [He|[_ He]]; rewrite He in IH; lia.
Qed.

(** X10. A batch that is no longer the current one is frozen: whatever
    transactions follow, its entry (open flag included) and its documents
    stay as they are.  In particular a batch left open when the next one
    was opened can never be closed. *)
Theorem past_batch_is_frozen (cs : list (Env * Call)) (w : World) (i : Z) :
  i < currentBatchId (storage w) ->
  get_batch (storage (execute_all cs w)) i = get_batch (storage w) i /\
  get_batchDocuments (storage (execute_all cs w)) i = get_batchDocuments (storage w) i.
Proof.
  revert w. induction cs as [|[env c] cs IH]; intros w Hi; [now split|].
  simpl.
  destruct (execute_frozen_batch env c w i (or_introl Hi)) as [Hb Hd].
  assert (Hi' : i < currentBatchId (storage (execute env c w))).
  { destruct (execute_currentBatchId env c w) as [He|[_ He]]; rewrite He; lia. }
  destruct (IH (execute env c w) Hi') as [Hb' Hd'].
  unfold get_batch, get_batchDocuments in *. simpl in Hb', Hd'.
  rewrite Hb', Hd', Hb, Hd. now split.
Qed.

(** X11. A closed batch is never reopened and receives no document,
    whatever transactions follow. *)
Theorem closed_batch_stays_closed (cs : list (Env * Call)) (w : World) (i : Z) :
  i <= currentBatchId (storage w) ->
  batch_open (get_batch (storage w) i) = false ->
  get_batch (storage (execute_all cs w)) i = get_batch (storage w) i /\
  get_batchDocuments (storage (execute_all cs w)) i = get_batchDocuments (storage w) i.
Proof.
  revert w. induction cs as [|[env c] cs IH]; intros w Hi Hc; [now split|].
  simpl.
  assert (Hf : i < currentBatchId (storage w) \/
               (i = currentBatchId (storage w) /\ batch_open (get_batch (storage w) i) = false))
    by (destruct (decide (i = currentBatchId (storage w))); [right; now split | left; lia]).
  destruct (execute_frozen_batch env c w i Hf) as [Hb Hd].
  assert (Hi' : i <= currentBatchId (storage (execute env c w))).
  { destruct (execute_currentBatchId env c w) as [He|[_ He]]; rewrite He; lia. }
  assert (Hc' : batch_open (get_batch (storage (execute env c w)) i) = false).
  { unfold get_batch in *. now rewrite Hb. }
  destruct (IH (execute env c w) Hi' Hc') as [Hb' Hd'].
  unfold get_batch, get_batchDocuments in *. simpl in Hb', Hd'.
  rewrite Hb', Hd', Hb, Hd. now split.
Qed.

Lemma execute_documents_prefix (env : Env) (c : Call) (w : World) (i : Z) :
  get_batchDocuments (storage w) i `prefix_of` get_batchDocuments (storage (execute env c w)) i.
Proof.
  destruct (execute_cases env c w) as [->|H]; [reflexivity|].
  destruct c; cbv zeta in H; try (rewrite H; reflexivity).
  - destruct H as [_ ->]. reflexivity.
  - destruct H as [_ ->]. reflexivity.
  - destruct H as (_ & _ & _ & ->). unfold get_batchDocuments at 2. simpl.
    destruct (decide (currentBatchId (storage w) = i)) as [<-|Hne].
    + rewrite lookup_insert_eq. simpl. now apply prefix_app_r.
    + rewrite lookup_insert_ne by assumption. reflexivity.
  - destruct H as (_ & ->). reflexivity.
  - destruct H as (_ & _ & count & ->). reflexivity.
Qed.

(** X12. The document list of a batch is append-only: after any sequence of
    transactions the earlier list is a prefix of the later one, so a
    stored document is never changed, removed or reordered. *)
Theorem documents_append_only (cs : list (Env * Call)) (w : World) (i : Z) :
  get_batchDocuments (storage w) i
    `prefix_of` get_batchDocuments (storage (execute_all cs w)) i.
Proof.
  revert w. induction cs as [|[env c] cs IH]; intros w; [reflexivity|].
  simpl. etrans; [apply execute_documents_prefix | apply IH].
Qed.

End LedgerInvariants.

(** ** No request is ever finalised *)

Section NeverFinalised.

Context {C : Capabilities} {L : HandleLaws C}.

Variable self : Z.
Hypothesis Hcf : collision_free.
Hypothesis Hplaceholder : keccak256 (abi_encode (new_bytes32_array 1) self) <> 0.

Lemma forallb_no_completion_snoc (evs : list Event) (e : Event) :
  forallb (fun e => negb (is_completion e)) evs = true ->
  is_completion e = false ->
  forallb (fun e => negb (is_completion e)) (evs ++ [e]) = true.
Proof.
  intros H He. rewrite forallb_app, H. simpl. now rewrite He.
Qed.

Lemma no_completion_completions (r : Z) (evs : list Event) :
  forallb (fun e => negb (is_completion e)) evs = true -> completions r evs = [].
Proof.
  unfold completions. induction evs as [|e evs IH]; [reflexivity|].
  simpl. intros H. apply andb_true_iff in H. destruct H as [He H].
  destruct e; try discriminate; simpl; now apply IH.
Qed.

Lemma constructor_nothing_finalised (env : Env) (o : OracleState) :
  nothing_finalised self (constructor env o).
Proof.
  split; [|reflexivity]. intros r c H. simpl in H. now rewrite lookup_empty in H.
Qed.

(** With nothing finalised, the state-hash check of a callback fails. *)
Lemma nothing_finalised_callback (env : Env) (requestId : Z)
    (cleartexts proof : list Byte.byte) (w : World) :
  this_address env = self ->
  nothing_finalised self w ->
  myCallback env requestId cleartexts proof w = Revert StateMismatch.
Proof.
  intros Hself [Hctx _]. unfold myCallback, get_decryptionContext. rewrite Hself.
  destruct (decryptionContexts (storage w) !! requestId) as [c|] eqn:E; simpl.
  - destruct (Hctx _ _ E) as (Hp & h & Hh & Hs). rewrite Hp, Hs. simpl.
    rewrite bool_decide_eq_false_2; [reflexivity|].
    intros Heq. apply Hcf, abi_encode_single_inj in Heq. contradiction.
  - rewrite bool_decide_eq_false_2; [reflexivity|].
    intros Heq. apply Hplaceholder. now symmetry.
Qed.

Lemma execute_nothing_finalised (env : Env) (c : Call) (w : World) :
  this_address env = self ->
  nothing_finalised self w -> nothing_finalised self (execute env c w).
Proof.
  intros Hself Hw.
  destruct c as [n|p|p| | |n| | |a b|batchId kw|requestId cleartexts proof];
    try (match goal with
         | |- nothing_finalised _ (execute _ ?c _) =>
             destruct (execute_cases env c w) as [->|H]; [assumption|]
         end;
         cbv zeta in H;
         repeat match type of H with _ /\ _ => destruct H as [_ H] end;
         rewrite H; destruct Hw as [Hctx Hev];
         split; [exact Hctx
                |simpl; apply forallb_no_completion_snoc; [exact Hev | reflexivity]]).
  - destruct (execute_cases env (CallSearchKeywordInBatch batchId kw) w)
      as [->|H]; [assumption|].
    cbv zeta in H. destruct H as [Hne ->]. destruct Hw as [Hctx Hev].
    split; [|simpl; apply forallb_no_completion_snoc; [exact Hev | reflexivity]].
    intros r c Hc. simpl in Hc. apply lookup_insert_Some in Hc.
    destruct Hc as [[_ <-]|[_ Hc]]; [|exact (Hctx _ _ Hc)].
    simpl. split; [reflexivity|]. eexists. split; [|unfold _hashCiphertexts; now rewrite Hself].
    apply isInitialized_nonzero. now apply encryptedCountOf_initialized.
  - change (execute env (CallMyCallback requestId cleartexts proof) w)
      with (transact (myCallback env requestId cleartexts proof) w).1.
    rewrite (transact_Revert _ _ _
               (nothing_finalised_callback env requestId cleartexts proof w Hself Hw)).
    assumption.
Qed.

Lemma reachable_nothing_finalised (w : World) :
  reachable self w -> nothing_finalised self w.
Proof.
  induction 1 as [env o _|env c w _ IH Hself].
  - apply constructor_nothing_finalised.
  - now apply execute_nothing_finalised.
Qed.

(** X22. With a digest that has no collisions and is not zero on the
    placeholder array, no reachable world holds a processed request or a
    search-completed notification, and every callback on a reachable
    world, whatever its request id, payload and proof, is rejected with
    [StateMismatch]: a search result is never revealed. *)
Theorem reachable_never_finalised (w : World) :
  reachable self w ->
  (forall r, processed (get_decryptionContext (storage w) r) = false) /\
  (forall r, completions r (events w) = []) /\
  (forall env r cleartexts proof, this_address env = self ->
     myCallback env r cleartexts proof w = Revert StateMismatch).
Proof.
  intros H. apply reachable_nothing_finalised in H.
  split; [|split].
  - intros r. destruct H as [Hctx _]. unfold get_decryptionContext.
    destruct (decryptionContexts (storage w) !! r) as [c|] eqn:E; [|reflexivity].
    simpl. now apply Hctx in E.
  - intros r. apply no_completion_completions. apply H.
  - intros env r cleartexts proof Hself. now apply nothing_finalised_callback.
Qed.

End NeverFinalised.

(** ** Administration *)

Section Administration.

Context {C : Capabilities}.

Lemma set_paused_round_trip (s : State) :
  paused s = false -> set_paused false (set_paused true s) = s.
Proof. destruct s. simpl. now intros ->. Qed.

(** X1. The six administrative functions are for the owner only: from any
    other caller each reverts with [NotOwner], whatever its arguments and
    whether or not the system is paused, and the world stays as it was. *)
Theorem administration_is_owner_only (env : Env) (w : World) :
  msg_sender env <> owner (storage w) ->
  (forall newOwner, transferOwnership env newOwner w = Revert NotOwner) /\
  (forall p, addProvider env p w = Revert NotOwner) /\
  (forall p, removeProvider env p w = Revert NotOwner) /\
  pause env w = Revert NotOwner /\
  unpause env w = Revert NotOwner /\
  (forall n, setCooldownSeconds env n w = Revert NotOwner) /\
  (forall c, match c with
             | CallTransferOwnership _ | CallAddProvider _ | CallRemoveProvider _
             | CallPause | CallUnpause | CallSetCooldownSeconds _ => execute env c w = w
             | _ => True
             end).
Proof.
  intros H. pose proof (onlyOwner_other env w H) as Ho.
  assert (H1 : forall newOwner, transferOwnership env newOwner w = Revert NotOwner)
    by (intros; unfold transferOwnership; now rewrite Ho).
  assert (H2 : forall p, addProvider env p w = Revert NotOwner)
    by (intros; unfold addProvider; now rewrite Ho).
  assert (H3 : forall p, removeProvider env p w = Revert NotOwner)
    by (intros; unfold removeProvider; now rewrite Ho).
  assert (H4 : pause env w = Revert NotOwner) by (unfold pause; now rewrite Ho).
  assert (H5 : unpause env w = Revert NotOwner) by (unfold unpause; now rewrite Ho).
  assert (H6 : forall n, setCooldownSeconds env n w = Revert NotOwner)
    by (intros; unfold setCooldownSeconds; now rewrite Ho).
  repeat split; try assumption.
  intros c. destruct c; try exact I; unfold execute, transact; simpl;
    now rewrite ?H1, ?H2, ?H3, ?H4, ?H5, ?H6.
Qed.

(** X2. [transferOwnership] refuses the zero address; when it succeeds the
    new address is the owner and passes the owner gate, the previous owner
    (if different) is refused by every administrative function, and the
    provider roles are as before: the new owner gets no provider role and
    the previous owner keeps the one it had. *)
Theorem transferOwnership_hands_over (env : Env) (w : World) :
  (msg_sender env = owner (storage w) ->
   transferOwnership env 0 w = Revert (ErrorString "New owner is zero address")) /\
  (forall newOwner w', transferOwnership env newOwner w = Ok w' ->
     newOwner <> 0 /\
     owner (storage w') = newOwner /\
     isProvider (storage w') = isProvider (storage w) /\
     events w' = events w ++ [OwnershipTransferred (msg_sender env) newOwner] /\
     (forall env', msg_sender env' = newOwner -> onlyOwner env' w' = Ok tt) /\
     (newOwner <> msg_sender env ->
      forall env', msg_sender env' = msg_sender env ->
        (forall n, transferOwnership env' n w' = Revert NotOwner) /\
        (forall p, addProvider env' p w' = Revert NotOwner) /\
        (forall p, removeProvider env' p w' = Revert NotOwner) /\
        pause env' w' = Revert NotOwner /\
        (forall n, setCooldownSeconds env' n w' = Revert NotOwner) /\
        openNewBatch env' w' = Revert NotOwner)).
Proof.
  split.
  - intros Ho. unfold transferOwnership. now rewrite onlyOwner_owner.
  - intros newOwner w' H. apply transferOwnership_Ok_inv in H.
    destruct H as (Ho & Hz & ->). simpl. rewrite <- Ho.
    repeat split; try assumption.
    + intros env' He. now apply onlyOwner_owner.
    + intros ?. unfold transferOwnership. rewrite onlyOwner_other; [reflexivity|].
      simpl. congruence.
    + intros ?. unfold addProvider. rewrite onlyOwner_other; [reflexivity|].
      simpl. congruence.
    + intros ?. unfold removeProvider. rewrite onlyOwner_other; [reflexivity|].
      simpl. congruence.
    + unfold pause. rewrite onlyOwner_other; [reflexivity|]. simpl. congruence.
    + intros ?. unfold setCooldownSeconds. rewrite onlyOwner_other; [reflexivity|].
      simpl. congruence.
    + unfold openNewBatch. rewrite onlyOwner_other; [reflexivity|]. simpl. congruence.
Qed.

(** X3. [pause] and [unpause] undo each other.  After a successful [pause]
    a second [pause] by the owner fails with [PausedContract], and
    [unpause] by the owner succeeds and restores the storage exactly; on
    a system that is not paused [unpause] fails with its [require]
    message. *)
Theorem pause_unpause_round_trip (env : Env) (w : World) :
  (msg_sender env = owner (storage w) -> paused (storage w) = false ->
   unpause env w = Revert (ErrorString "Contract not paused")) /\
  (forall w1, pause env w = Ok w1 ->
     paused (storage w1) = true /\
     forall env', msg_sender env' = msg_sender env ->
       pause env' w1 = Revert PausedContract /\
       exists w2, unpause env' w1 = Ok w2 /\
         storage w2 = storage w /\
         events w2 = events w ++ [Paused (msg_sender env); Unpaused (msg_sender env)] /\
         oracle w2 = oracle w /\ oracleRequests w2 = oracleRequests w).
Proof.
  split.
  - intros Ho Hpa. unfold unpause. rewrite onlyOwner_owner by assumption.
    now rewrite Hpa.
  - intros w1 H. apply pause_Ok_inv in H. destruct H as (Ho & Hpa & ->).
    split; [reflexivity|]. intros env' He.
    assert (Ho' : onlyOwner env'
              (emit (Paused (msg_sender env)) (upd_storage (set_paused true) w)) = Ok tt)
      by (apply onlyOwner_owner; simpl; congruence).
    split.
    + unfold pause. now rewrite Ho'.
    + unfold unpause. rewrite Ho'. simpl. eexists. split; [reflexivity|]. simpl.
      rewrite set_paused_round_trip by assumption. rewrite He.
      repeat split. now rewrite <- app_assoc.
Qed.

(** X4. A successful [removeProvider] closes the provider-gated functions
    to the removed address, the owner itself included, while the owner
    stays the owner; a successful [addProvider] lets the added address
    through the provider gate.  Neither changes the role of any other
    address. *)
Theorem provider_role_controls_access (env : Env) (p : Z) (w : World) :
  (forall w', removeProvider env p w = Ok w' ->
     owner (storage w') = owner (storage w) /\
     (forall q, q <> p -> get_isProvider (storage w') q = get_isProvider (storage w) q) /\
     (forall env', msg_sender env' = p ->
        (forall a b, submitDocument env' a b w' = Revert NotProvider) /\
        (forall i k, searchKeywordInBatch env' i k w' = Revert NotProvider))) /\
  (forall w', addProvider env p w = Ok w' ->
     owner (storage w') = owner (storage w) /\
     (forall q, q <> p -> get_isProvider (storage w') q = get_isProvider (storage w) q) /\
     (forall env', msg_sender env' = p -> onlyProvider env' w' = Ok tt)).
Proof.
  split.
  - intros w' H. apply removeProvider_Ok_inv in H. destruct H as [_ ->].
    assert (Hp : get_isProvider (storage
              (if get_isProvider (storage w) p
               then emit (ProviderRemoved p) (upd_storage (set_isProvider p false) w)
               else w)) p = false).
    { destruct (get_isProvider (storage w) p) eqn:E; [|exact E].
      unfold get_isProvider. simpl. now rewrite lookup_insert_eq. }
    split; [now destruct (get_isProvider (storage w) p)|]. split.
    + intros q Hq. destruct (get_isProvider (storage w) p); [|reflexivity].
      unfold get_isProvider. simpl. now rewrite lookup_insert_ne.
    + intros env' He. split; intros;
        [unfold submitDocument | unfold searchKeywordInBatch];
        unfold onlyProvider; now rewrite He, Hp.
  - intros w' H. apply addProvider_Ok_inv in H. destruct H as [_ ->].
    split; [now destruct (get_isProvider (storage w) p)|]. split.
    + intros q Hq. destruct (get_isProvider (storage w) p); [reflexivity|].
      unfold get_isProvider. simpl. now rewrite lookup_insert_ne.
    + intros env' He. unfold onlyProvider. rewrite He.
      destruct (get_isProvider (storage w) p) eqn:E; [now rewrite E|].
      unfold get_isProvider. simpl. now rewrite lookup_insert_eq.
Qed.

End Administration.

(** ** Submissions and searches *)

Section SubmissionsAndSearches.

Context {C : Capabilities}.

(** The cooldown check passes exactly when the sum is in range and has
    elapsed. *)
Lemma cooldown_Ok (last cd now : Z) :
  last + cd <= MAX_UINT256 -> last + cd <= now ->
  (limit ← checked_add last cd; check (negb (now <? limit)) CooldownActive) = Ok tt.
Proof.
  intros Hr Hle. rewrite checked_add_Ok by assumption. rewrite bind_Ok.
  apply Z.ltb_ge in Hle. now rewrite Hle.
Qed.

Lemma cooldown_Ok_range (last cd now : Z) (u : unit) :
  (limit ← checked_add last cd; check (negb (now <? limit)) CooldownActive) = Ok u ->
  last + cd <= MAX_UINT256.
Proof. intros H. now apply cooldown_Ok_inv in H. Qed.

Lemma submitDocument_Ok (env : Env) (encId encContent : Z) (w : World) :
  let s := storage w in
  let cur := currentBatchId s in
  get_isProvider s (msg_sender env) = true ->
  paused s = false ->
  get_lastSubmissionTime s (msg_sender env) + cooldownSeconds s <= MAX_UINT256 ->
  get_lastSubmissionTime s (msg_sender env) + cooldownSeconds s <= block_timestamp env ->
  isInitialized encId = true -> isInitialized encContent = true ->
  batch_open (get_batch s cur) = true ->
  submitDocument env encId encContent w
  = Ok (emit (DocumentSubmitted (msg_sender env) cur encId)
         (upd_storage (set_lastSubmissionTime (msg_sender env) (block_timestamp env))
            (upd_storage (set_batchDocuments cur
               (get_batchDocuments s cur ++ [mkDocument encId encContent])) w))).
Proof.
  cbv zeta. intros Hp Hpa Hr Hcd Hi Hc Ho.
  unfold submitDocument, checkSubmissionCooldown.
  unfold onlyProvider, whenNotPaused, _initIfNeeded.
  rewrite Hp, Hpa, Hi, Hc, Ho. simpl.
  now rewrite cooldown_Ok.
Qed.

(** X14. [submitDocument] succeeds exactly when the caller is a provider,
    the system is not paused, last + cooldownSeconds fits in 256 bits and
    has elapsed, both handles are initialised and the current batch is
    open. *)
Theorem submitDocument_succeeds_iff (env : Env) (encId encContent : Z) (w : World) :
  let s := storage w in
  (exists w', submitDocument env encId encContent w = Ok w') <->
  get_isProvider s (msg_sender env) = true /\
  paused s = false /\
  get_lastSubmissionTime s (msg_sender env) + cooldownSeconds s <= MAX_UINT256 /\
  get_lastSubmissionTime s (msg_sender env) + cooldownSeconds s <= block_timestamp env /\
  isInitialized encId = true /\ isInitialized encContent = true /\
  batch_open (get_batch s (currentBatchId s)) = true.
Proof.
  cbv zeta. split.
  - intros [w' H].
    assert (Hr : get_lastSubmissionTime (storage w) (msg_sender env)
                 + cooldownSeconds (storage w) <= MAX_UINT256).
    { unfold submitDocument in H. step_Ok H. step_Ok H. step_Ok H.
      now apply cooldown_Ok_range in Hc1. }
    apply submitDocument_Ok_inv in H. cbv zeta in H.
    destruct H as (Hp & Hpa & Hcd & Hi & Hc & Ho & _). auto 10.
  - intros (Hp & Hpa & Hr & Hcd & Hi & Hc & Ho).
    eexists. now apply submitDocument_Ok.
Qed.

(** X15. Once the gates are passed (provider, not paused, cooldown
    elapsed), [submitDocument] checks the id handle, then the content
    handle, then the batch: an uninitialised handle gives
    [NotInitialized], also when the batch is closed, and a closed current
    batch gives [BatchClosedOrInvalid]. *)
Theorem submitDocument_rejections (env : Env) (encId encContent : Z) (w : World) :
  get_isProvider (storage w) (msg_sender env) = true ->
  paused (storage w) = false ->
  checkSubmissionCooldown env w = Ok tt ->
  (isInitialized encId = false ->
   submitDocument env encId encContent w = Revert NotInitialized) /\
  (isInitialized encContent = false ->
   submitDocument env encId encContent w = Revert NotInitialized) /\
  (isInitialized encId = true -> isInitialized encContent = true ->
   batch_open (get_batch (storage w) (currentBatchId (storage w))) = false ->
   submitDocument env encId encContent w = Revert BatchClosedOrInvalid).
Proof.
  intros Hp Hpa Hcd. unfold submitDocument.
  unfold onlyProvider, whenNotPaused, _initIfNeeded. rewrite Hp, Hpa, Hcd. simpl.
  repeat split.
  - intros ->. reflexivity.
  - intros ->. now destruct (isInitialized encId).
  - intros -> -> ->. reflexivity.
Qed.

(** X18. [searchKeywordInBatch] succeeds only if the caller is a
    provider, the system is not paused, last + cooldownSeconds fits in 256
    bits and has elapsed, the keyword is initialised, the batch id is not
    zero and not above the current id, the batch is open and has a
    document. *)
Theorem searchKeywordInBatch_succeeds_only_if (env : Env) (batchId kw : Z) (w w' : World) :
  searchKeywordInBatch env batchId kw w = Ok w' ->
  let s := storage w in
  get_isProvider s (msg_sender env) = true /\
  paused s = false /\
  get_lastDecryptionRequestTime s (msg_sender env) + cooldownSeconds s <= MAX_UINT256 /\
  get_lastDecryptionRequestTime s (msg_sender env) + cooldownSeconds s
    <= block_timestamp env /\
  isInitialized kw = true /\
  batchId <> 0 /\ batchId <= currentBatchId s /\
  batch_open (get_batch s batchId) = true /\
  get_batchDocuments s batchId <> [].
Proof.
  intros H. cbv zeta.
  assert (Hr : get_lastDecryptionRequestTime (storage w) (msg_sender env)
               + cooldownSeconds (storage w) <= MAX_UINT256).
  { pose proof H as H'. unfold searchKeywordInBatch in H'.
    step_Ok H'. step_Ok H'. step_Ok H'.
    now apply cooldown_Ok_range in Hc1. }
  apply searchKeywordInBatch_Ok_inv in H. cbv zeta in H.
  destruct H as (Hp & Hpa & Hcd & Hi & (Hz & Hle & Ho) & Hne & _). auto 10.
Qed.

(** X19. Once the gates are passed and the keyword is initialised, a search
    on batch id 0, on an id above the current one, or on a closed batch
    fails with [InvalidBatchId]; an uninitialised keyword is refused
    before the batch id is looked at. *)
Theorem searchKeywordInBatch_invalid_batch (env : Env) (batchId kw : Z) (w : World) :
  get_isProvider (storage w) (msg_sender env) = true ->
  paused (storage w) = false ->
  checkDecryptionCooldown env w = Ok tt ->
  (isInitialized kw = false ->
   searchKeywordInBatch env batchId kw w = Revert NotInitialized) /\
  (isInitialized kw = true ->
   batchId = 0 \/ currentBatchId (storage w) < batchId \/
   batch_open (get_batch (storage w) batchId) = false ->
   searchKeywordInBatch env batchId kw w = Revert InvalidBatchId).
Proof.
  intros Hp Hpa Hcd. unfold searchKeywordInBatch.
  unfold onlyProvider, whenNotPaused, _initIfNeeded. rewrite Hp, Hpa, Hcd. simpl.
  split.
  - intros ->. reflexivity.
  - intros -> Hbad. simpl.
    assert (Hb : (batchId =? 0) || (currentBatchId (storage w) <? batchId)
                 || negb (batch_open (get_batch (storage w) batchId)) = true).
    { destruct Hbad as [->|[Hgt|Hc]].
      - reflexivity.
      - apply Z.ltb_lt in Hgt. rewrite Hgt. now rewrite orb_true_r.
      - rewrite Hc. now rewrite orb_true_r. }
    now rewrite Hb.
Qed.

(** X20. A successful search reads the ledger and does not write it: owner,
    roles, pause flag, cooldown, submission times, batches and documents
    are as before.  It writes the context of the request id the oracle
    gave, the caller's own decryption time, one notification and one
    oracle request; the contexts of other ids and the decryption times of
    other callers are untouched. *)
Theorem searchKeywordInBatch_frame (env : Env) (batchId kw : Z) (w w' : World) :
  searchKeywordInBatch env batchId kw w = Ok w' ->
  let s := storage w in
  let s' := storage w' in
  let cts := [encryptedCountOf (get_batchDocuments s batchId) kw] in
  let requestId := (requestDecryption (oracle w) cts).1 in
  owner s' = owner s /\ isProvider s' = isProvider s /\ paused s' = paused s /\
  cooldownSeconds s' = cooldownSeconds s /\
  lastSubmissionTime s' = lastSubmissionTime s /\
  currentBatchId s' = currentBatchId s /\ batches s' = batches s /\
  batchDocuments s' = batchDocuments s /\
  (forall r, r <> requestId -> decryptionContexts s' !! r = decryptionContexts s !! r) /\
  (forall a, a <> msg_sender env ->
     lastDecryptionRequestTime s' !! a = lastDecryptionRequestTime s !! a) /\
  events w' = events w ++ [KeywordSearchRequested requestId batchId kw] /\
  oracle w' = (requestDecryption (oracle w) cts).2 /\
  oracleRequests w' = oracleRequests w ++ [(requestId, cts)].
Proof.
  intros H. apply searchKeywordInBatch_Ok_inv in H. cbv zeta in *.
  destruct H as (_ & _ & _ & _ & _ & _ & ->). simpl.
  repeat split.
  - intros r Hr. now apply lookup_insert_ne.
  - intros a Ha. now apply lookup_insert_ne.
Qed.

(** X17. The two cooldowns are separate and per caller.  A successful
    submission changes the submission time of its caller only: the
    decryption cooldown of every caller and the submission cooldown of
    every other caller give the same outcome as before.  A successful
    search likewise leaves every submission cooldown as it was. *)
Theorem cooldowns_are_separate (env : Env) (w : World) :
  (forall a b w', submitDocument env a b w = Ok w' ->
     (forall env', checkDecryptionCooldown env' w' = checkDecryptionCooldown env' w) /\
     (forall env', msg_sender env' <> msg_sender env ->
        checkSubmissionCooldown env' w' = checkSubmissionCooldown env' w)) /\
  (forall i k w', searchKeywordInBatch env i k w = Ok w' ->
     (forall env', checkSubmissionCooldown env' w' = checkSubmissionCooldown env' w) /\
     (forall env', msg_sender env' <> msg_sender env ->
        checkDecryptionCooldown env' w' = checkDecryptionCooldown env' w)).
Proof.
  split.
  - intros a b w' H. apply submitDocument_Ok_inv in H. cbv zeta in H.
    destruct H as (_ & _ & _ & _ & _ & _ & ->). split.
    + intros env'. reflexivity.
    + intros env' Hne. unfold checkSubmissionCooldown, get_lastSubmissionTime. simpl.
      now rewrite lookup_insert_ne.
  - intros i k w' H. apply searchKeywordInBatch_Ok_inv in H. cbv zeta in H.
    destruct H as (_ & _ & _ & _ & _ & _ & ->). split.
    + intros env'. reflexivity.
    + intros env' Hne. unfold checkDecryptionCooldown, get_lastDecryptionRequestTime.
      simpl. now rewrite lookup_insert_ne.
Qed.

(** X16. After a successful submission at time t the same caller is refused
    with [CooldownActive] at every time before t + cooldownSeconds, and at
    any time from t + cooldownSeconds on (the sum fitting in 256 bits) a
    second submission with initialised handles succeeds and the batch
    holds both documents, in the order submitted. *)
Theorem resubmission_window (env : Env) (a b : Z) (w w' : World) :
  submitDocument env a b w = Ok w' ->
  let s := storage w in
  let cur := currentBatchId s in
  let t := block_timestamp env in
  t + cooldownSeconds s <= MAX_UINT256 ->
  forall env' a' b', msg_sender env' = msg_sender env ->
    (block_timestamp env' < t + cooldownSeconds s ->
     submitDocument env' a' b' w' = Revert CooldownActive) /\
    (t + cooldownSeconds s <= block_timestamp env' ->
     isInitialized a' = true -> isInitialized b' = true ->
     exists w'', submitDocument env' a' b' w' = Ok w'' /\
       get_batchDocuments (storage w'') cur
         = get_batchDocuments s cur ++ [mkDocument a b; mkDocument a' b']).
Proof.
  intros H. apply submitDocument_Ok_inv in H. cbv zeta in *.
  destruct H as (Hp & Hpa & _ & _ & _ & Ho & Hw'). intros Hr env' a' b' He.
  assert (Hlast : get_lastSubmissionTime (storage w') (msg_sender env')
                  = block_timestamp env).
  { rewrite Hw', He. simpl. apply get_lastSubmissionTime_set_eq. }
  assert (Hcd : cooldownSeconds (storage w') = cooldownSeconds (storage w))
    by now rewrite Hw'.
  assert (Hp' : get_isProvider (storage w') (msg_sender env') = true)
    by now rewrite Hw', He.
  assert (Hpa' : paused (storage w') = false) by now rewrite Hw'.
  assert (Hcur : currentBatchId (storage w') = currentBatchId (storage w))
    by now rewrite Hw'.
  assert (Ho' : batch_open (get_batch (storage w') (currentBatchId (storage w))) = true)
    by now rewrite Hw'.
  assert (Hdocs : get_batchDocuments (storage w') (currentBatchId (storage w))
                  = get_batchDocuments (storage w) (currentBatchId (storage w))
                    ++ [mkDocument a b]).
  { rewrite Hw'. unfold get_batchDocuments at 1. simpl. now rewrite lookup_insert_eq. }
  split.
  - intros Hlt. unfold submitDocument, checkSubmissionCooldown.
    unfold onlyProvider, whenNotPaused. rewrite Hp', Hpa', Hlast, Hcd. simpl.
    now rewrite cooldown_active.
  - intros Hle Hi Hc. eexists. split.
    + apply submitDocument_Ok; rewrite ?Hlast, ?Hcd, ?Hcur; assumption.
    + simpl. rewrite Hcur. unfold get_batchDocuments at 1. simpl.
      rewrite lookup_insert_eq. simpl. rewrite Hdocs. now rewrite <- app_assoc.
Qed.

(** X13. After a successful [closeCurrentBatch] the current batch is closed
    with its documents intact; a provider that passes the gates can
    neither submit to it ([BatchClosedOrInvalid]) nor search it
    ([InvalidBatchId]), and closing again succeeds and changes nothing. *)
Theorem closeCurrentBatch_seals_batch (env : Env) (w w' : World) :
  closeCurrentBatch env w = Ok w' ->
  let cur := currentBatchId (storage w) in
  currentBatchId (storage w') = cur /\
  batch_open (get_batch (storage w') cur) = false /\
  batchDocuments (storage w') = batchDocuments (storage w) /\
  closeCurrentBatch env w' = Ok w' /\
  (forall env' a b,
     get_isProvider (storage w') (msg_sender env') = true ->
     checkSubmissionCooldown env' w' = Ok tt ->
     isInitialized a = true -> isInitialized b = true ->
     submitDocument env' a b w' = Revert BatchClosedOrInvalid) /\
  (forall env' k,
     get_isProvider (storage w') (msg_sender env') = true ->
     checkDecryptionCooldown env' w' = Ok tt ->
     isInitialized k = true ->
     searchKeywordInBatch env' cur k w' = Revert InvalidBatchId).
Proof.
  intros H. apply closeCurrentBatch_Ok_inv in H. cbv zeta in *.
  destruct H as (Ho & Hpa & Hw').
  assert (Hcur : currentBatchId (storage w') = currentBatchId (storage w))
    by (rewrite Hw'; now destruct (batch_open _)).
  assert (Hclosed : batch_open (get_batch (storage w') (currentBatchId (storage w))) = false).
  { rewrite Hw'. destruct (batch_open _) eqn:E; [|exact E].
    simpl. now rewrite get_batch_set_batch_eq. }
  assert (Hpa' : paused (storage w') = false)
    by (rewrite Hw'; now destruct (batch_open _)).
  assert (Hown : owner (storage w') = owner (storage w))
    by (rewrite Hw'; now destruct (batch_open _)).
  split; [exact Hcur|]. split; [exact Hclosed|].
  split; [rewrite Hw'; now destruct (batch_open _)|]. split; [|split].
  - unfold closeCurrentBatch. rewrite onlyOwner_owner by congruence.
    unfold whenNotPaused. rewrite Hpa'. simpl. now rewrite Hcur, Hclosed.
  - intros env' a b Hp Hcd Hi Hc. unfold submitDocument.
    unfold onlyProvider, whenNotPaused, _initIfNeeded.
    rewrite Hp, Hpa', Hcd, Hi, Hc. simpl. now rewrite Hcur, Hclosed.
  - intros env' k Hp Hcd Hi. unfold searchKeywordInBatch.
    unfold onlyProvider, whenNotPaused, _initIfNeeded.
    rewrite Hp, Hpa', Hcd, Hi. simpl. rewrite Hclosed. simpl.
    now rewrite !orb_true_r.
Qed.

(** X21. [myCallback] has no role, pause or cooldown gate.  It succeeds
    exactly when the stored context is unprocessed, its state hash is the
    digest of the placeholder array and the contract address, the oracle
    accepts the proof and the payload has at least 32 bytes; it then marks
    the request processed, keeps its batch id and state hash, and logs the
    decoded count. *)
Theorem myCallback_succeeds_iff (env : Env) (requestId : Z)
    (cleartexts proof : list Byte.byte) (w : World) :
  let c0 := get_decryptionContext (storage w) requestId in
  ((exists w', myCallback env requestId cleartexts proof w = Ok w') <->
   processed c0 = false /\
   stateHash c0 = keccak256 (abi_encode (new_bytes32_array 1) (this_address env)) /\
   checkSignatures (oracle w) requestId cleartexts proof = true /\
   (32 <= length cleartexts)%nat) /\
  (forall w', myCallback env requestId cleartexts proof w = Ok w' ->
     get_decryptionContext (storage w') requestId
       = mkDecryptionContext (ctx_batchId c0) (stateHash c0) true /\
     events w' = events w ++ [KeywordSearchCompleted requestId (ctx_batchId c0)
                                 (be_value (take 32 cleartexts) 0)] /\
     (forall r, r <> requestId ->
        decryptionContexts (storage w') !! r = decryptionContexts (storage w) !! r)).
Proof.
  cbv zeta. split; [split|].
  - intros [w' H]. unfold myCallback in H.
    step_Ok H. apply check_Ok_inv, negb_true_iff in Hc.
    step_Ok H. apply check_Ok_inv, bool_decide_eq_true in Hc0.
    step_Ok H. apply check_Ok_inv in Hc1.
    apply bind_Ok_inv in H. destruct H as (count & Hcount & _).
    unfold abi_decode_uint256 in Hcount.
    destruct (length cleartexts <? 32)%nat eqn:E; [discriminate|].
    apply Nat.ltb_ge in E. auto.
  - intros (Hp & Hs & Hsig & Hlen). unfold myCallback.
    rewrite Hp, Hs, Hsig. simpl. rewrite bool_decide_eq_true_2 by reflexivity. simpl.
    unfold abi_decode_uint256. apply Nat.ltb_ge in Hlen. rewrite Hlen. simpl. eauto.
  - intros w' H. pose proof H as H'. apply myCallback_Ok_inv in H.
    destruct H as (_ & count & Hcount & ->). simpl.
    unfold abi_decode_uint256 in Hcount.
    destruct (length cleartexts <? 32)%nat; [discriminate|]. injection Hcount as <-.
    split; [apply get_decryptionContext_set_eq|]. split; [reflexivity|].
    intros r Hr. now apply lookup_insert_ne.
Qed.

End SubmissionsAndSearches.

(** ** More on the state hash *)

Section StateHashFacts.

Context {C : Capabilities}.

Lemma abi_encode_inj (cts cts' : list Z) (a a' : Z) :
  abi_encode cts a = abi_encode cts' a' -> cts = cts' /\ a = a'.
Proof. unfold abi_encode. intros [= -> _ ->]. now split. Qed.

(** X23. With a digest without collisions the state hash binds the handles
    and the contract: two state hashes are equal exactly when they are
    taken over the same handles by a contract at the same address. *)
Theorem stateHash_binds_handles_and_contract (env env' : Env) (cts cts' : list Z) :
  collision_free ->
  (_hashCiphertexts env cts = _hashCiphertexts env' cts' <->
   cts = cts' /\ this_address env = this_address env').
Proof.
  intros Hcf. unfold _hashCiphertexts. split.
  - intros H. now apply Hcf, abi_encode_inj in H.
  - intros [-> ->]. reflexivity.
Qed.

End StateHashFacts.

(** ** Concrete runs *)

Module ScenarioFacts.
Import ClearBackend ClearBackendLaws Scenario.

Example w_deployed_events :
  events w_deployed = [ProviderAdded 1; BatchOpened 1].
Proof. reflexivity. Qed.

Example w_three_documents_contents :
  map (fun d => decrypt (encryptedContent d))
      (get_batchDocuments (storage w_three_documents) 1) = [5; 7; 5].
Proof. vm_compute. reflexivity. Qed.

(** A run that does not revert yields the world of [run]. *)
Lemma run_Ok (f : World (C := caps) -> Result (World (C := caps))) (w : World (C := caps)) :
  is_ok (f w) = true -> f w = Ok (run f w).
Proof. unfold run, transact. destruct (f w); [reflexivity | discriminate]. Qed.

Example search_5_succeeds :
  searchKeywordInBatch (at_time 1 400) 1 (asEuint32 5) w_three_documents
  = Ok w_searched_5.
Proof. apply run_Ok. vm_compute. reflexivity. Qed.

(** Contents 5, 7, 5: the handle sent to the oracle decrypts to 3, the
    size of the batch, for the query 5 and for the query 9. *)
Example search_5_counts_3 :
  map (fun '(r, cts) => (r, map decrypt cts)) (oracleRequests w_searched_5)
  = [(0, [3])].
Proof. vm_compute. reflexivity. Qed.

Example search_9_counts_3 :
  map (fun '(r, cts) => (r, map decrypt cts)) (oracleRequests w_searched_9)
  = [(0, [3])].
Proof. vm_compute. reflexivity. Qed.

(** The loop of the specification on the same contents: 2 for the query 5
    and 0 for the query 9. *)
Example spec_loop_counts_2_and_0 :
  decrypt (spec_encryptedCountOf (C := caps)
             (get_batchDocuments (storage w_three_documents) 1) (asEuint32 5)) = 2 /\
  decrypt (spec_encryptedCountOf (C := caps)
             (get_batchDocuments (storage w_three_documents) 1) (asEuint32 9)) = 0.
Proof. vm_compute. split; reflexivity. Qed.

(** The oracle of the clear-text backend accepts the plaintext of the
    handle it was sent for request 0. *)
Example oracle_accepts_plaintext_of_handle :
  checkSignatures (oracle w_searched_5) 0 (payload_of 3) [] = true /\
  abi_decode_uint256 (payload_of 3) = Ok 3.
Proof. vm_compute. split; reflexivity. Qed.

End ScenarioFacts.

(** ** Instances of the theorems and counterexamples *)

Import ClearBackend ClearBackendLaws Scenario.

(** C10 at the deployment by account 1: the deployer submits a document
    at time 100 with no [addProvider] call. *)
Lemma constructor_deployer_is_owner_and_provider_witness :
  isInitialized 2 = true /\ isInitialized 6 = true /\ 30 <= 100 /\
  exists w', submitDocument (C := caps) (at_time 1 100) 2 6 w_deployed = Ok w' /\
    get_batchDocuments (storage w') 1 = [mkDocument 2 6] /\
    events w' = events w_deployed ++ [DocumentSubmitted 1 1 2].
Proof.
  split; [reflexivity|]. split; [reflexivity|]. split; [lia|].
  pose proof (constructor_deployer_is_owner_and_provider (C := caps) (at_time 1 0) [])
    as H.
  cbv zeta in H. destruct H as (_ & _ & _ & _ & _ & _ & _ & H).
  destruct (H (at_time 1 100) 2 6 eq_refl) as [_ Hsubmit].
  apply Hsubmit; [reflexivity | reflexivity | simpl; lia].
Defined.

(** C7 at the deployed world: after [openNewBatch] batches 1 and 2 are
    both open. *)
Lemma openNewBatch_keeps_previous_batch_witness :
  openNewBatch (C := caps) (at_time 1 50) w_deployed = Ok w_two_batches /\
  batch_open (get_batch (storage w_deployed) 1) = true /\
  batch_open (get_batch (storage w_two_batches) 1) = true /\
  batch_open (get_batch (storage w_two_batches) 2) = true /\
  currentBatchId (storage w_two_batches) = 2.
Proof.
  assert (Hrun : openNewBatch (C := caps) (at_time 1 50) w_deployed = Ok w_two_batches)
    by (apply ScenarioFacts.run_Ok; vm_compute; reflexivity).
  pose proof (openNewBatch_keeps_previous_batch _ _ _ Hrun) as H.
  cbv zeta in H. destruct H as (Hcur & _ & _ & _ & Hboth & _).
  split; [exact Hrun|]. split; [reflexivity|].
  destruct (Hboth eq_refl) as (H1 & H2 & _).
  split; [exact H1|]. split; [exact H2|]. exact Hcur.
Defined.

(** C3: request 7 was never registered on the deployed world; the
    callback fails, and not with an error of the NotFound kind. *)
Lemma myCallback_unknown_request_not_NotFound :
  decryptionContexts (storage w_deployed) !! 7 = None /\
  myCallback (C := caps) (at_time 2 500) 7 [] [] w_deployed = Revert StateMismatch /\
  ~ (exists e, myCallback (C := caps) (at_time 2 500) 7 [] [] w_deployed = Revert e /\
               kind_of e = Some NotFoundError).
Proof.
  split; [reflexivity|]. split; [reflexivity|].
  intros (e & He & Hk).
  assert (Hrun : myCallback (C := caps) (at_time 2 500) 7 [] [] w_deployed
                 = Revert StateMismatch) by reflexivity.
  rewrite Hrun in He. injection He as <-. discriminate.
Qed.

(** C3 (as amended) on the same call. *)
Lemma myCallback_unknown_request_fails_integrity_witness :
  decryptionContexts (storage w_deployed) !! 7 = None /\
  keccak256 (abi_encode (new_bytes32_array 1) 99) <> 0 /\
  myCallback (C := caps) (at_time 2 500) 7 [] [] w_deployed = Revert StateMismatch /\
  transact (myCallback (C := caps) (at_time 2 500) 7 [] []) w_deployed
    = (w_deployed, Some StateMismatch).
Proof.
  assert (Habs : decryptionContexts (storage w_deployed) !! 7 = None) by reflexivity.
  assert (Hne : keccak256 (abi_encode (new_bytes32_array 1) 99) <> 0)
    by (unfold keccak256; discriminate).
  split; [exact Habs|]. split; [exact Hne|].
  destruct (myCallback_unknown_request_fails_integrity (C := caps)
              (at_time 2 500) 7 [] [] w_deployed Habs Hne) as (H1 & _ & H2 & _).
  split; [exact H1 | exact H2].
Defined.

(** C4 at a world in which request 3 is processed. *)
Lemma myCallback_replay_rejected_witness :
  processed (get_decryptionContext (storage w_processed) 3) = true /\
  myCallback (C := caps) (at_time 2 500) 3 (payload_of 2) [] w_processed
    = Revert ReplayAttempt /\
  transact (myCallback (C := caps) (at_time 2 500) 3 (payload_of 2) []) w_processed
    = (w_processed, Some ReplayAttempt).
Proof.
  assert (Hp : processed (get_decryptionContext (storage w_processed) 3) = true)
    by reflexivity.
  split; [exact Hp|].
  destruct (myCallback_replay_rejected (C := caps)
              (at_time 2 500) 3 (payload_of 2) [] w_processed Hp) as (H1 & _ & H2 & _).
  split; [exact H1 | exact H2].
Defined.

(** C5: the system is paused and account 2 holds no role; its submission
    fails with the Authorization error, not with the paused error. *)
Lemma paused_outsider_gets_authorization_error :
  paused (storage w_paused) = true /\
  get_isProvider (storage w_paused) 2 = false /\
  submitDocument (C := caps) (at_time 2 100) 2 6 w_paused = Revert NotProvider /\
  submitDocument (C := caps) (at_time 2 100) 2 6 w_paused <> Revert PausedContract /\
  openNewBatch (C := caps) (at_time 2 100) w_paused = Revert NotOwner /\
  kind_of NotProvider = Some AuthorizationError /\
  kind_of NotOwner = Some AuthorizationError /\
  kind_of PausedContract = Some LifecycleError.
Proof. repeat split; try reflexivity. discriminate. Qed.

(** C5 (as amended) on the same world: the role check comes first for
    every gated entry point. *)
Lemma gates_role_then_pause_then_cooldown_witness :
  get_isProvider (storage w_paused) 2 = false /\
  2 <> owner (storage w_paused) /\
  submitDocument (C := caps) (at_time 2 100) 2 6 w_paused = Revert NotProvider /\
  searchKeywordInBatch (C := caps) (at_time 2 100) 1 6 w_paused = Revert NotProvider /\
  closeCurrentBatch (C := caps) (at_time 2 100) w_paused = Revert NotOwner.
Proof.
  assert (Hp : get_isProvider (storage w_paused) 2 = false) by reflexivity.
  assert (Ho : 2 <> owner (storage w_paused)) by discriminate.
  pose proof (gates_role_then_pause_then_cooldown (C := caps) (at_time 2 100) w_paused)
    as H.
  cbv zeta in H. destruct H as (Hrole & Hown & _).
  split; [exact Hp|]. split; [exact Ho|].
  destruct (Hrole Hp) as [Hs Hk]. destruct (Hown Ho) as [_ Hc].
  split; [apply Hs|]. split; [apply Hk | exact Hc].
Defined.

(** C6 at the deployed world, whose batch 1 is open and empty. *)
Lemma searchKeywordInBatch_empty_batch_fails_witness :
  1 <= 1 <= currentBatchId (storage w_deployed) /\
  batch_open (get_batch (storage w_deployed) 1) = true /\
  get_batchDocuments (storage w_deployed) 1 = [] /\
  searchKeywordInBatch (C := caps) (at_time 1 100) 1 6 w_deployed
    = Revert (ErrorString "No documents in batch") /\
  decryptionContexts
    (storage (transact (searchKeywordInBatch (C := caps) (at_time 1 100) 1 6) w_deployed).1)
    = decryptionContexts (storage w_deployed) /\
  oracleRequests (transact (searchKeywordInBatch (C := caps) (at_time 1 100) 1 6) w_deployed).1
    = oracleRequests w_deployed.
Proof.
  assert (Hr : 1 <= 1 <= currentBatchId (storage w_deployed)) by (simpl; lia).
  assert (Ho : batch_open (get_batch (storage w_deployed) 1) = true) by reflexivity.
  assert (He : get_batchDocuments (storage w_deployed) 1 = []) by reflexivity.
  pose proof (searchKeywordInBatch_empty_batch_fails (C := caps)
                (at_time 1 100) 1 6 w_deployed Hr Ho He) as H.
  cbv zeta in H. destruct H as (_ & Hrev & _ & _ & Hctx & Hreq & _).
  split; [exact Hr|]. split; [exact Ho|]. split; [exact He|].
  split; [apply Hrev; reflexivity|]. split; [exact Hctx | exact Hreq].
Defined.

(** C8: after a submission at time 100 the owner sets the cooldown to
    2^256 - 1.  At time 200 the provider is within the cooldown
    (200 < 100 + cooldownSeconds), but the sum does not fit in 256 bits and
    the call is rejected by the overflow check, not with [CooldownActive]. *)
Lemma huge_cooldown_overflows_before_rate_limit :
  get_isProvider (storage w_max_cooldown) 1 = true /\
  paused (storage w_max_cooldown) = false /\
  get_lastSubmissionTime (storage w_max_cooldown) 1 = 100 /\
  cooldownSeconds (storage w_max_cooldown) = MAX_UINT256 /\
  200 < get_lastSubmissionTime (storage w_max_cooldown) 1
        + cooldownSeconds (storage w_max_cooldown) /\
  submitDocument (C := caps) (at_time 1 200) 2 6 w_max_cooldown = Revert (Panic 17) /\
  submitDocument (C := caps) (at_time 1 200) 2 6 w_max_cooldown <> Revert CooldownActive /\
  kind_of (Panic 17) <> Some RateLimitError.
Proof.
  assert (Hrun : submitDocument (C := caps) (at_time 1 200) 2 6 w_max_cooldown
                 = Revert (Panic 17))
    by (apply error_of_Revert; vm_compute; reflexivity).
  split; [vm_compute; reflexivity|]. split; [vm_compute; reflexivity|].
  split; [vm_compute; reflexivity|]. split; [vm_compute; reflexivity|].
  split; [vm_compute; reflexivity|]. split; [exact Hrun|].
  split; [rewrite Hrun; discriminate | discriminate].
Qed.

(** C8 with the default cooldown: a second submission at time 110, ten
    seconds after the first, is rejected with [CooldownActive]. *)
Lemma cooldown_gate_witness :
  get_isProvider (storage w_one_document) 1 = true /\
  paused (storage w_one_document) = false /\
  get_lastSubmissionTime (storage w_one_document) 1 = 100 /\
  cooldownSeconds (storage w_one_document) = 30 /\
  submitDocument (C := caps) (at_time 1 110) 2 6 w_one_document = Revert CooldownActive.
Proof.
  assert (Hp : get_isProvider (storage w_one_document) 1 = true)
    by (vm_compute; reflexivity).
  assert (Hpa : paused (storage w_one_document) = false) by (vm_compute; reflexivity).
  pose proof (cooldown_gate (C := caps) (at_time 1 110) w_one_document) as H.
  cbv zeta in H. destruct H as (Hgate & _).
  destruct (Hgate Hp Hpa) as (Hactive & _).
  split; [exact Hp|]. split; [exact Hpa|].
  split; [vm_compute; reflexivity|]. split; [vm_compute; reflexivity|].
  apply Hactive; vm_compute; [discriminate | reflexivity].
Defined.

(** C9: the deployer is already a provider and account 2 is not; adding
    the one and removing the other succeed, log nothing and change
    nothing. *)
Lemma redundant_provider_change_logs_nothing :
  get_isProvider (storage w_deployed) 1 = true /\
  addProvider (C := caps) (at_time 1 50) 1 w_deployed = Ok w_deployed /\
  events w_deployed <> events w_deployed ++ [ProviderAdded 1] /\
  get_isProvider (storage w_deployed) 2 = false /\
  removeProvider (C := caps) (at_time 1 50) 2 w_deployed = Ok w_deployed /\
  events w_deployed <> events w_deployed ++ [ProviderRemoved 2].
Proof. repeat split; try reflexivity; discriminate. Qed.

(** C9 (as amended): adding account 2, which is not a provider yet, logs
    the notification. *)
Lemma access_control_notifications_witness :
  addProvider (C := caps) (at_time 1 50) 2 w_deployed
    = Ok (run (addProvider (at_time 1 50) 2) w_deployed) /\
  get_isProvider (storage w_deployed) 2 = false /\
  events (run (addProvider (at_time 1 50) 2) w_deployed)
    = events w_deployed ++ [ProviderAdded 2].
Proof.
  assert (Hrun : addProvider (C := caps) (at_time 1 50) 2 w_deployed
                 = Ok (run (addProvider (at_time 1 50) 2) w_deployed))
    by (apply ScenarioFacts.run_Ok; vm_compute; reflexivity).
  pose proof (access_control_notifications (C := caps) (at_time 1 50) w_deployed
                (run (addProvider (at_time 1 50) 2) w_deployed)) as H.
  destruct H as (_ & _ & _ & _ & Hadd & _).
  destruct (Hadd 2 Hrun) as [_ Hev].
  split; [exact Hrun|]. split; [reflexivity|]. exact Hev.
Defined.

(** C1 on the run with three documents: the search for 5 is registered as
    request 0, its handle is untouched, and the callback that carries the
    number of matching documents, 2, is rejected with [StateMismatch]. *)
Lemma myCallback_rejects_registered_request_witness :
  collision_free (C := caps) /\
  searchKeywordInBatch (C := caps) (at_time 1 400) 1 (asEuint32 5) w_three_documents
    = Ok w_searched_5 /\
  myCallback (C := caps) (at_time 5 500) 0 (payload_of 2) [] w_searched_5
    = Revert StateMismatch.
Proof.
  split; [exact keccak256_collision_free|].
  split; [exact ScenarioFacts.search_5_succeeds|].
  destruct (myCallback_rejects_registered_request (C := caps) (L := handles)
              (at_time 1 400) 1 (asEuint32 5) w_three_documents w_searched_5
              keccak256_collision_free ScenarioFacts.search_5_succeeds)
    as (_ & _ & H).
  destruct (H (at_time 5 500) (payload_of 2) [] w_searched_5 eq_refl eq_refl)
    as [Hrev _].
  exact Hrev.
Defined.


(** ** Instances of the further theorems *)

Module ReachableWorlds.

Lemma run_is_execute (env : Env) (c : Call) (w : World (C := caps)) :
  run (dispatch env c) w = execute env c w.
Proof. reflexivity. Qed.

Lemma w_deployed_reachable : reachable 99 w_deployed.
Proof. now apply reachable_deployed. Qed.

Lemma w_two_batches_reachable : reachable 99 w_two_batches.
Proof.
  exact (reachable_execute 99 (at_time 1 50) CallOpenNewBatch w_deployed
           w_deployed_reachable eq_refl).
Qed.

Lemma w_one_document_reachable : reachable 99 w_one_document.
Proof.
  exact (reachable_execute 99 (at_time 1 100)
           (CallSubmitDocument (asEuint32 1) (asEuint32 5)) w_deployed
           w_deployed_reachable eq_refl).
Qed.

Lemma w_three_documents_reachable : reachable 99 w_three_documents.
Proof.
  exact (reachable_execute 99 (at_time 1 300)
           (CallSubmitDocument (asEuint32 3) (asEuint32 5)) _
           (reachable_execute 99 (at_time 1 200)
              (CallSubmitDocument (asEuint32 2) (asEuint32 7)) _
              w_one_document_reachable eq_refl) eq_refl).
Qed.

Lemma w_searched_5_reachable : reachable 99 w_searched_5.
Proof.
  exact (reachable_execute 99 (at_time 1 400)
           (CallSearchKeywordInBatch 1 (asEuint32 5)) _
           w_three_documents_reachable eq_refl).
Qed.

Lemma placeholder_digest_nonzero :
  keccak256 (abi_encode (new_bytes32_array 1) 99) <> 0.
Proof. unfold keccak256. discriminate. Qed.

End ReachableWorlds.

(** X1: account 2 is not the owner of the deployed contract. *)
Lemma administration_is_owner_only_witness :
  2 <> owner (storage w_deployed) /\
  addProvider (C := caps) (at_time 2 50) 2 w_deployed = Revert NotOwner /\
  setCooldownSeconds (C := caps) (at_time 2 50) 1 w_deployed = Revert NotOwner /\
  unpause (C := caps) (at_time 2 50) w_deployed = Revert NotOwner.
Proof.
  assert (Ho : msg_sender (at_time 2 50) <> owner (storage w_deployed)) by discriminate.
  destruct (administration_is_owner_only (C := caps) (at_time 2 50) w_deployed Ho)
    as (_ & Hadd & _ & _ & Hun & Hset & _).
  split; [exact Ho|]. split; [apply Hadd|]. split; [apply Hset | exact Hun].
Defined.

(** X2: the deployer hands the contract over to account 2 and is then
    refused by [addProvider]. *)
Lemma transferOwnership_hands_over_witness :
  transferOwnership (C := caps) (at_time 1 50) 2 w_deployed
    = Ok (run (transferOwnership (at_time 1 50) 2) w_deployed) /\
  owner (storage (run (transferOwnership (at_time 1 50) 2) w_deployed)) = 2 /\
  addProvider (C := caps) (at_time 1 60) 3 (run (transferOwnership (at_time 1 50) 2) w_deployed)
    = Revert NotOwner /\
  transferOwnership (C := caps) (at_time 1 50) 0 w_deployed
    = Revert (ErrorString "New owner is zero address").
Proof.
  assert (Hrun : transferOwnership (C := caps) (at_time 1 50) 2 w_deployed
                 = Ok (run (transferOwnership (at_time 1 50) 2) w_deployed))
    by (apply ScenarioFacts.run_Ok; vm_compute; reflexivity).
  destruct (transferOwnership_hands_over (C := caps) (at_time 1 50) w_deployed)
    as [Hzero Hok].
  destruct (Hok 2 _ Hrun) as (_ & Hown & _ & _ & _ & Hold).
  assert (Hne : 2 <> msg_sender (at_time 1 50)) by discriminate.
  destruct (Hold Hne (at_time 1 60) eq_refl) as (_ & Hadd & _).
  split; [exact Hrun|]. split; [exact Hown|]. split; [apply Hadd|].
  apply Hzero. reflexivity.
Defined.

(** X3: pausing and unpausing the deployed contract restores its
    storage. *)
Lemma pause_unpause_round_trip_witness :
  pause (C := caps) (at_time 1 50) w_deployed = Ok w_paused /\
  pause (C := caps) (at_time 1 60) w_paused = Revert PausedContract /\
  exists w2, unpause (C := caps) (at_time 1 60) w_paused = Ok w2 /\
    storage w2 = storage w_deployed /\
    events w2 = events w_deployed ++ [Paused 1; Unpaused 1].
Proof.
  assert (Hrun : pause (C := caps) (at_time 1 50) w_deployed = Ok w_paused)
    by (apply ScenarioFacts.run_Ok; vm_compute; reflexivity).
  destruct (pause_unpause_round_trip (C := caps) (at_time 1 50) w_deployed) as [_ Hok].
  destruct (Hok _ Hrun) as [_ Hnext].
  destruct (Hnext (at_time 1 60) eq_refl) as (Hagain & w2 & Hun & Hs & He & _).
  split; [exact Hrun|]. split; [exact Hagain|].
  exists w2. split; [exact Hun|]. split; [exact Hs | exact He].
Defined.

(** X4: the owner removes its own provider role and can no longer
    submit. *)
Lemma provider_role_controls_access_witness :
  removeProvider (C := caps) (at_time 1 50) 1 w_deployed
    = Ok (run (removeProvider (at_time 1 50) 1) w_deployed) /\
  owner (storage (run (removeProvider (at_time 1 50) 1) w_deployed)) = 1 /\
  submitDocument (C := caps) (at_time 1 100) 2 6
    (run (removeProvider (at_time 1 50) 1) w_deployed) = Revert NotProvider.
Proof.
  assert (Hrun : removeProvider (C := caps) (at_time 1 50) 1 w_deployed
                 = Ok (run (removeProvider (at_time 1 50) 1) w_deployed))
    by (apply ScenarioFacts.run_Ok; vm_compute; reflexivity).
  destruct (provider_role_controls_access (C := caps) (at_time 1 50) 1 w_deployed)
    as [Hrem _].
  destruct (Hrem _ Hrun) as (Hown & _ & Hgate).
  destruct (Hgate (at_time 1 100) eq_refl) as [Hsub _].
  split; [exact Hrun|]. split; [exact Hown | apply Hsub].
Defined.

(** X5 on the world with three documents. *)
Lemma reachable_cooldown_positive_witness :
  reachable 99 w_three_documents /\ 0 < cooldownSeconds (storage w_three_documents).
Proof.
  split; [exact ReachableWorlds.w_three_documents_reachable|].
  exact (reachable_cooldown_positive (C := caps) 99 w_three_documents
           ReachableWorlds.w_three_documents_reachable).
Defined.

(** X6 on the world with two batches. *)
Lemma reachable_batches_contiguous_witness :
  reachable 99 w_two_batches /\
  (is_Some (batches (storage w_two_batches) !! 2) <->
   1 <= 2 <= currentBatchId (storage w_two_batches)) /\
  (is_Some (batches (storage w_two_batches) !! 3) <->
   1 <= 3 <= currentBatchId (storage w_two_batches)).
Proof.
  destruct (reachable_batches_contiguous (C := caps) 99 w_two_batches
              ReachableWorlds.w_two_batches_reachable) as (_ & Hiff & _).
  split; [exact ReachableWorlds.w_two_batches_reachable|].
  split; [apply Hiff | apply Hiff].
Defined.

(** X7 on the world with three documents. *)
Lemma reachable_documents_initialized_witness :
  reachable 99 w_three_documents /\
  (forall d, d ∈ get_batchDocuments (storage w_three_documents) 1 ->
     isInitialized (encryptedId d) = true /\ isInitialized (encryptedContent d) = true) /\
  get_batchDocuments (storage w_three_documents) 2 = [].
Proof.
  split; [exact ReachableWorlds.w_three_documents_reachable|].
  destruct (reachable_documents_initialized (C := caps) 99 w_three_documents
              ReachableWorlds.w_three_documents_reachable 1) as [Hinit _].
  destruct (reachable_documents_initialized (C := caps) 99 w_three_documents
              ReachableWorlds.w_three_documents_reachable 2) as [_ Hout].
  split; [exact Hinit|]. apply Hout. vm_compute. intros [_ H]. now apply H.
Defined.

(** X8: batch 2, just opened on the deployed contract, is empty. *)
Lemma fresh_batch_is_empty_witness :
  reachable 99 w_deployed /\
  openNewBatch (C := caps) (at_time 1 50) w_deployed = Ok w_two_batches /\
  get_batchDocuments (storage w_two_batches) 2 = [] /\
  searchKeywordInBatch (C := caps) (at_time 1 100) 2 6 w_two_batches
    = Revert (ErrorString "No documents in batch").
Proof.
  assert (Hrun : openNewBatch (C := caps) (at_time 1 50) w_deployed = Ok w_two_batches)
    by (apply ScenarioFacts.run_Ok; vm_compute; reflexivity).
  pose proof (fresh_batch_is_empty (C := caps) 99 (at_time 1 50) w_deployed w_two_batches
                ReachableWorlds.w_deployed_reachable Hrun) as H.
  cbv zeta in H. destruct H as (Hnew & _ & Hdocs & Hsearch).
  assert (Hcur : currentBatchId (storage w_two_batches) = 2) by (vm_compute; reflexivity).
  rewrite Hcur in Hdocs, Hsearch.
  split; [exact ReachableWorlds.w_deployed_reachable|]. split; [exact Hrun|].
  split; [exact Hdocs|].
  apply Hsearch; vm_compute; reflexivity.
Defined.

(** X10: batch 1 of the world with two batches stays open through a
    [closeCurrentBatch] and a submission, which act on batch 2. *)
Lemma past_batch_is_frozen_witness :
  1 < currentBatchId (storage w_two_batches) /\
  get_batch (storage (execute_all (C := caps)
      [(at_time 1 60, CallCloseCurrentBatch);
       (at_time 1 100, CallSubmitDocument 2 6)] w_two_batches)) 1
  = get_batch (storage w_two_batches) 1.
Proof.
  assert (Hi : 1 < currentBatchId (storage w_two_batches))
    by (vm_compute; reflexivity).
  split; [exact Hi|].
  exact (proj1 (past_batch_is_frozen (C := caps)
                  [(at_time 1 60, CallCloseCurrentBatch);
                   (at_time 1 100, CallSubmitDocument 2 6)] w_two_batches 1 Hi)).
Defined.

(** X11: batch 1, closed on the deployed contract, stays closed and empty
    through a submission and an [openNewBatch]. *)
Lemma closed_batch_stays_closed_witness :
  1 <= currentBatchId (storage (run (closeCurrentBatch (C := caps) (at_time 1 50)) w_deployed)) /\
  batch_open (get_batch
    (storage (run (closeCurrentBatch (C := caps) (at_time 1 50)) w_deployed)) 1) = false /\
  get_batch (storage (execute_all (C := caps)
      [(at_time 1 100, CallSubmitDocument 2 6); (at_time 1 110, CallOpenNewBatch)]
      (run (closeCurrentBatch (at_time 1 50)) w_deployed))) 1
  = get_batch (storage (run (closeCurrentBatch (C := caps) (at_time 1 50)) w_deployed)) 1.
Proof.
  assert (Hi : 1 <= currentBatchId
            (storage (run (closeCurrentBatch (C := caps) (at_time 1 50)) w_deployed)))
    by (vm_compute; discriminate).
  assert (Hc : batch_open (get_batch
            (storage (run (closeCurrentBatch (C := caps) (at_time 1 50)) w_deployed)) 1) = false)
    by (vm_compute; reflexivity).
  split; [exact Hi|]. split; [exact Hc|].
  exact (proj1 (closed_batch_stays_closed (C := caps)
                  [(at_time 1 100, CallSubmitDocument 2 6); (at_time 1 110, CallOpenNewBatch)]
                  _ 1 Hi Hc)).
Defined.

(** X13: closing batch 1 of the world with one document. *)
Lemma closeCurrentBatch_seals_batch_witness :
  closeCurrentBatch (C := caps) (at_time 1 150) w_one_document
    = Ok (run (closeCurrentBatch (at_time 1 150)) w_one_document) /\
  submitDocument (C := caps) (at_time 1 200) 2 6
    (run (closeCurrentBatch (at_time 1 150)) w_one_document) = Revert BatchClosedOrInvalid /\
  searchKeywordInBatch (C := caps) (at_time 1 200) 1 6
    (run (closeCurrentBatch (at_time 1 150)) w_one_document) = Revert InvalidBatchId.
Proof.
  assert (Hrun : closeCurrentBatch (C := caps) (at_time 1 150) w_one_document
                 = Ok (run (closeCurrentBatch (at_time 1 150)) w_one_document))
    by (apply ScenarioFacts.run_Ok; vm_compute; reflexivity).
  pose proof (closeCurrentBatch_seals_batch (C := caps) (at_time 1 150) w_one_document
                _ Hrun) as H.
  cbv zeta in H. destruct H as (_ & _ & _ & _ & Hsub & Hsearch).
  assert (Hcur : currentBatchId (storage w_one_document) = 1) by (vm_compute; reflexivity).
  rewrite Hcur in Hsearch.
  split; [exact Hrun|]. split.
  - apply Hsub; vm_compute; reflexivity.
  - apply Hsearch; vm_compute; reflexivity.
Defined.

(** X14: the deployer's first submission at time 100 meets every
    condition. *)
Lemma submitDocument_succeeds_iff_witness :
  get_isProvider (storage w_deployed) 1 = true /\
  paused (storage w_deployed) = false /\
  batch_open (get_batch (storage w_deployed) 1) = true /\
  exists w', submitDocument (C := caps) (at_time 1 100) 2 6 w_deployed = Ok w'.
Proof.
  split; [reflexivity|]. split; [reflexivity|]. split; [reflexivity|].
  apply (submitDocument_succeeds_iff (C := caps) (at_time 1 100) 2 6 w_deployed).
  vm_compute. repeat split; discriminate.
Defined.

(** X15: the zero handle as content, and a closed batch. *)
Lemma submitDocument_rejections_witness :
  get_isProvider (storage w_deployed) 1 = true /\
  paused (storage w_deployed) = false /\
  checkSubmissionCooldown (C := caps) (at_time 1 100) w_deployed = Ok tt /\
  isInitialized 0 = false /\
  submitDocument (C := caps) (at_time 1 100) 2 0 w_deployed = Revert NotInitialized.
Proof.
  assert (Hp : get_isProvider (storage w_deployed) 1 = true) by reflexivity.
  assert (Hpa : paused (storage w_deployed) = false) by reflexivity.
  assert (Hcd : checkSubmissionCooldown (C := caps) (at_time 1 100) w_deployed = Ok tt)
    by (vm_compute; reflexivity).
  destruct (submitDocument_rejections (C := caps) (at_time 1 100) 2 0 w_deployed
              Hp Hpa Hcd) as (_ & Hcontent & _).
  split; [exact Hp|]. split; [exact Hpa|]. split; [exact Hcd|].
  split; [reflexivity|]. apply Hcontent. reflexivity.
Defined.

(** X16: after the submission at time 100 with the default cooldown of
    30, a second one is refused at time 129 and accepted at time 130. *)
Lemma resubmission_window_witness :
  submitDocument (C := caps) (at_time 1 100) (asEuint32 1) (asEuint32 5) w_deployed
    = Ok w_one_document /\
  submitDocument (C := caps) (at_time 1 129) 2 6 w_one_document = Revert CooldownActive /\
  exists w'', submitDocument (C := caps) (at_time 1 130) 2 6 w_one_document = Ok w'' /\
    get_batchDocuments (storage w'') 1
      = [mkDocument (asEuint32 1) (asEuint32 5); mkDocument 2 6].
Proof.
  assert (Hrun : submitDocument (C := caps) (at_time 1 100) (asEuint32 1) (asEuint32 5)
                   w_deployed = Ok w_one_document)
    by (apply ScenarioFacts.run_Ok; vm_compute; reflexivity).
  pose proof (resubmission_window (C := caps) (at_time 1 100) (asEuint32 1) (asEuint32 5)
                w_deployed w_one_document Hrun) as H.
  cbv zeta in H.
  assert (Hr : block_timestamp (at_time 1 100) + cooldownSeconds (storage w_deployed)
               <= MAX_UINT256) by (vm_compute; discriminate).
  split; [exact Hrun|]. split.
  - destruct (H Hr (at_time 1 129) 2 6 eq_refl) as [Hearly _].
    apply Hearly. vm_compute. reflexivity.
  - destruct (H Hr (at_time 1 130) 2 6 eq_refl) as [_ Hlate].
    apply Hlate; [vm_compute; discriminate | reflexivity | reflexivity].
Defined.

(** X17: after the deployer's submission at time 100 its search at the
    same time passes the decryption cooldown as it did before. *)
Lemma cooldowns_are_separate_witness :
  submitDocument (C := caps) (at_time 1 100) (asEuint32 1) (asEuint32 5) w_deployed
    = Ok w_one_document /\
  checkDecryptionCooldown (C := caps) (at_time 1 100) w_one_document
    = checkDecryptionCooldown (C := caps) (at_time 1 100) w_deployed /\
  checkDecryptionCooldown (C := caps) (at_time 1 100) w_deployed = Ok tt.
Proof.
  assert (Hrun : submitDocument (C := caps) (at_time 1 100) (asEuint32 1) (asEuint32 5)
                   w_deployed = Ok w_one_document)
    by (apply ScenarioFacts.run_Ok; vm_compute; reflexivity).
  destruct (cooldowns_are_separate (C := caps) (at_time 1 100) w_deployed) as [Hsub _].
  destruct (Hsub _ _ _ Hrun) as [Hdec _].
  split; [exact Hrun|]. split; [apply Hdec | vm_compute; reflexivity].
Defined.

(** X18: the search for 5 on the world with three documents went
    through, so every condition held. *)
Lemma searchKeywordInBatch_succeeds_only_if_witness :
  searchKeywordInBatch (C := caps) (at_time 1 400) 1 (asEuint32 5) w_three_documents
    = Ok w_searched_5 /\
  get_isProvider (storage w_three_documents) 1 = true /\
  batch_open (get_batch (storage w_three_documents) 1) = true /\
  get_batchDocuments (storage w_three_documents) 1 <> [].
Proof.
  pose proof (searchKeywordInBatch_succeeds_only_if (C := caps) (at_time 1 400) 1
                (asEuint32 5) w_three_documents w_searched_5
                ScenarioFacts.search_5_succeeds) as H.
  cbv zeta in H. destruct H as (Hp & _ & _ & _ & _ & _ & _ & Ho & Hne).
  split; [exact ScenarioFacts.search_5_succeeds|].
  split; [exact Hp|]. split; [exact Ho | exact Hne].
Defined.

(** X19: batch ids 0 and 2 on the world with three documents in batch 1. *)
Lemma searchKeywordInBatch_invalid_batch_witness :
  get_isProvider (storage w_three_documents) 1 = true /\
  paused (storage w_three_documents) = false /\
  checkDecryptionCooldown (C := caps) (at_time 1 400) w_three_documents = Ok tt /\
  searchKeywordInBatch (C := caps) (at_time 1 400) 0 6 w_three_documents
    = Revert InvalidBatchId /\
  searchKeywordInBatch (C := caps) (at_time 1 400) 2 6 w_three_documents
    = Revert InvalidBatchId.
Proof.
  assert (Hp : get_isProvider (storage w_three_documents) 1 = true)
    by (vm_compute; reflexivity).
  assert (Hpa : paused (storage w_three_documents) = false) by (vm_compute; reflexivity).
  assert (Hcd : checkDecryptionCooldown (C := caps) (at_time 1 400) w_three_documents = Ok tt)
    by (vm_compute; reflexivity).
  split; [exact Hp|]. split; [exact Hpa|]. split; [exact Hcd|]. split.
  - apply (searchKeywordInBatch_invalid_batch (C := caps) (at_time 1 400) 0 6
             w_three_documents Hp Hpa Hcd); [reflexivity | now left].
  - apply (searchKeywordInBatch_invalid_batch (C := caps) (at_time 1 400) 2 6
             w_three_documents Hp Hpa Hcd); [reflexivity|].
    right. left. vm_compute. reflexivity.
Defined.

(** X20: the search for 5 leaves the three documents where they are. *)
Lemma searchKeywordInBatch_frame_witness :
  searchKeywordInBatch (C := caps) (at_time 1 400) 1 (asEuint32 5) w_three_documents
    = Ok w_searched_5 /\
  batchDocuments (storage w_searched_5) = batchDocuments (storage w_three_documents) /\
  batches (storage w_searched_5) = batches (storage w_three_documents) /\
  lastSubmissionTime (storage w_searched_5) = lastSubmissionTime (storage w_three_documents).
Proof.
  pose proof (searchKeywordInBatch_frame (C := caps) (at_time 1 400) 1 (asEuint32 5)
                w_three_documents w_searched_5 ScenarioFacts.search_5_succeeds) as H.
  cbv zeta in H. destruct H as (_ & _ & _ & _ & Hlast & _ & Hb & Hd & _).
  split; [exact ScenarioFacts.search_5_succeeds|].
  split; [exact Hd|]. split; [exact Hb | exact Hlast].
Defined.

(** X21: a world in which request 0 holds the digest of the placeholder
    array as its state hash, and the oracle holds the handle of the
    plaintext 2 for it: the callback with the payload 2 goes through and
    logs the count 2. *)
Lemma myCallback_succeeds_iff_witness :
  let hash0 := keccak256 (abi_encode (new_bytes32_array 1) 99) in
  let w := mkWorld (C := caps)
             (set_decryptionContext 0 (mkDecryptionContext 1 hash0 false)
                (storage w_deployed))
             (events w_deployed) [[3]] [(0, [3])] in
  exists w', myCallback (C := caps) (at_time 5 500) 0 (payload_of 2) [] w = Ok w' /\
    processed (get_decryptionContext (storage w') 0) = true /\
    events w' = events w ++ [KeywordSearchCompleted 0 1 2].
Proof.
  cbv zeta.
  set (w := mkWorld (C := caps)
              (set_decryptionContext 0
                 (mkDecryptionContext 1 (keccak256 (abi_encode (new_bytes32_array 1) 99)) false)
                 (storage w_deployed))
              (events w_deployed) [[3]] [(0, [3])]).
  destruct (myCallback_succeeds_iff (C := caps) (at_time 5 500) 0 (payload_of 2) [] w)
    as [Hiff Heffect].
  assert (Hok : exists w', myCallback (C := caps) (at_time 5 500) 0 (payload_of 2) [] w = Ok w').
  { apply Hiff. split; [reflexivity|]. split; [reflexivity|].
    split; [vm_compute; reflexivity|]. vm_compute. lia. }
  destruct Hok as [w' Hw']. exists w'. split; [exact Hw'|].
  destruct (Heffect w' Hw') as (Hctx & Hev & _).
  split; [now rewrite Hctx | exact Hev].
Defined.

(** X22 on the world after the search for 5: a callback for its request
    is rejected, and no request is processed. *)
Lemma reachable_never_finalised_witness :
  collision_free (C := caps) /\
  keccak256 (abi_encode (new_bytes32_array 1) 99) <> 0 /\
  reachable 99 w_searched_5 /\
  processed (get_decryptionContext (storage w_searched_5) 0) = false /\
  myCallback (C := caps) (at_time 5 500) 0 (payload_of 2) [] w_searched_5
    = Revert StateMismatch.
Proof.
  destruct (reachable_never_finalised (C := caps) (L := handles) 99
              keccak256_collision_free ReachableWorlds.placeholder_digest_nonzero
              w_searched_5 ReachableWorlds.w_searched_5_reachable)
    as (Hp & _ & Hcb).
  split; [exact keccak256_collision_free|].
  split; [exact ReachableWorlds.placeholder_digest_nonzero|].
  split; [exact ReachableWorlds.w_searched_5_reachable|].
  split; [apply Hp | now apply Hcb].
Defined.

(** X23: the same handle hashed by contracts at addresses 99 and 98. *)
Lemma stateHash_binds_handles_and_contract_witness :
  collision_free (C := caps) /\
  _hashCiphertexts (C := caps) (at_time 1 400) [3]
    <> _hashCiphertexts (C := caps) (mkEnv 1 400 98) [3].
Proof.
  split; [exact keccak256_collision_free|].
  intros H.
  apply (stateHash_binds_handles_and_contract (C := caps) (at_time 1 400) (mkEnv 1 400 98)
           [3] [3] keccak256_collision_free) in H.
  destruct H as [_ H]. discriminate H.
Defined.
